(** * RunMeter: the runoff computation of [streamlit_app.py]

    The "Calculate Runoff" handler of [streamlit_app.py] reads three columns
    of the uploaded table, applies the SCS curve-number formula or the
    Strange formula to whole columns at once (pandas Series arithmetic),
    rounds the three result columns to two decimals and shows them; any
    exception is caught and reported by a single error message.

    The handler is embedded over an interface of the arithmetic it uses,
    read at [binary64]: IEEE 754 double precision, the float64 dtype of the
    Series at run time, through the Standard Library's [SpecFloat].

    The columns of a table are of dtype float64.  A column that pandas
    reads as int64 behaves in the handler like the float64 column of the
    same values as long as these are below 2^53 in magnitude and the
    product [rainfall * area] of two int64 columns is below 2^63 (beyond,
    the int64 product wraps); larger integers, and columns of dtype object
    (a text cell), are outside the model. *)

From Stdlib Require Import ZArith List String Bool Lia.
From Stdlib Require Import Floats.SpecFloat.
From Stdlib Require Import Ascii.
From Stdlib Require Import NArith Decimal DecimalString DecimalN.
Import ListNotations.

Local Open Scope string_scope.
Local Open Scope Z_scope.

(* ================================================================== *)
(** ** The arithmetic of a Series element *)

(** What the handler does to a number: decimal literals, the four
    operations, and [rint] (round to the nearest integer, ties to even),
    on which numpy builds [round]. *)
Class Arith (F : Type) : Type := {
  lit  : Z -> nat -> F;          (* the literal  m * 10^-k *)
  add  : F -> F -> F;
  sub  : F -> F -> F;
  mul  : F -> F -> F;
  div  : F -> F -> F;
  rint : F -> F
}.

(** *** IEEE 754 binary64 *)
Module Binary64.

Definition prec : Z := 53.
Definition emax : Z := 1024.

Definition float64 : Type := spec_float.

Definition of_Z (z : Z) : float64 := binary_normalize prec emax z 0 false.

Definition f_add : float64 -> float64 -> float64 := SFadd prec emax.
Definition f_sub : float64 -> float64 -> float64 := SFsub prec emax.
Definition f_mul : float64 -> float64 -> float64 := SFmul prec emax.
Definition f_div : float64 -> float64 -> float64 := SFdiv prec emax.

(** A decimal literal denotes the double nearest to it.  Numerator and
    power of ten are exact doubles for the literals of the handler, and
    the quotient of two doubles is correctly rounded. *)
Definition f_lit (m : Z) (k : nat) : float64 :=
  match k with
  | O => of_Z m
  | _ => f_div (of_Z m) (of_Z (10 ^ Z.of_nat k))
  end.

(** The integer nearest to [m / d], ties to even. *)
Definition nearest_even (m d : Z) : Z :=
  let q := m / d in
  match 2 * (m mod d) ?= d with
  | Lt => q
  | Gt => q + 1
  | Eq => if Z.even q then q else q + 1
  end.

(** C's [rint] in the default rounding mode.  A double with a
    non-negative exponent is an integer already. *)
Definition f_rint (x : float64) : float64 :=
  match x with
  | S754_finite s m (Zneg p) =>
      match nearest_even (Zpos m) (Z.pow_pos 2 p) with
      | Z0 => S754_zero s
      | Zpos n => binary_round prec emax s n 0
      | Zneg _ => S754_nan
      end
  | _ => x
  end.

Definition ltb : float64 -> float64 -> bool := SFltb.
Definition leb : float64 -> float64 -> bool := SFleb.
Definition eqb : float64 -> float64 -> bool := SFeqb.

Definition zero : float64 := S754_zero false.
Definition nan : float64 := S754_nan.

Definition is_finite (x : float64) : bool :=
  match x with
  | S754_zero _ | S754_finite _ _ _ => true
  | S754_infinity _ | S754_nan => false
  end.

(** NaN, or a value whose sign bit is [b]: for [b = false] that is +0, a
    positive number or +inf. *)
Definition has_sign (b : bool) (x : float64) : Prop :=
  match x with
  | S754_nan => True
  | S754_zero s | S754_infinity s | S754_finite s _ _ => s = b
  end.

End Binary64.

#[export] Instance binary64 : Arith Binary64.float64 := {
  lit  := Binary64.f_lit;
  add  := Binary64.f_add;
  sub  := Binary64.f_sub;
  mul  := Binary64.f_mul;
  div  := Binary64.f_div;
  rint := Binary64.f_rint
}.

(* ================================================================== *)
(** ** The part of pandas the handler uses *)

(** What the [try] block raises on a table of numeric columns: the
    [KeyError] of a column lookup.  (Arithmetic on a column of dtype
    object raises a [TypeError], which the same [except] clause reports;
    such columns are outside the model.) *)
Inductive exn : Type :=
| KeyError (key : string).

(** The body of the [try] block either raises or returns. *)
Definition result (A : Type) : Type := exn + A.

Definition ret {A : Type} (a : A) : result A := inr a.
Definition raise {A : Type} (e : exn) : result A := inl e.
Definition bind {A B : Type} (m : result A) (k : A -> result B) : result B :=
  match m with
  | inl e => inl e
  | inr a => k a
  end.

Notation "x <- m ;; k" := (bind m (fun x => k))
  (at level 61, m at next level, right associativity).

Section Pandas.
Context {F : Type} {A : Arith F}.

Definition Series : Type := list F.

(** A DataFrame: its columns in header order.  All columns of a frame
    have the length of its index. *)
Definition DataFrame : Type := list (string * Series).

Definition well_formed (n : nat) (data : DataFrame) : Prop :=
  Forall (fun c => List.length (snd c) = n) data.

(** [data[key]] *)
Fixpoint getitem (data : DataFrame) (key : string) : result Series :=
  match data with
  | [] => raise (KeyError key)
  | (name, col) :: rest =>
      if String.eqb name key then ret col else getitem rest key
  end.

(** Series against scalar and Series against Series, element by element. *)
Definition scalar_op (f : F -> F -> F) (c : F) (s : Series) : Series :=
  map (f c) s.
Definition op_scalar (f : F -> F -> F) (s : Series) (c : F) : Series :=
  map (fun x => f x c) s.
Fixpoint series_op (f : F -> F -> F) (s t : Series) : Series :=
  match s, t with
  | x :: s', y :: t' => f x y :: series_op f s' t'
  | _, _ => []
  end.

(** [s ** 2]: numpy squares for the scalar exponent 2, [x * x]. *)
Definition square (s : Series) : Series := map (fun x => mul x x) s.

(** [round(x, 2)] of numpy on a float: scale by [10**2], [rint], scale
    back.  It is not Python's built-in [round]. *)
Definition round2 (x : F) : F := div (rint (mul x (lit 100 0))) (lit 100 0).

(** [s.round(2)] *)
Definition round (s : Series) : Series := map round2 s.

End Pandas.

Arguments Series F : clear implicits.
Arguments DataFrame F : clear implicits.

(* ================================================================== *)
(** ** The handler *)

Section Handler.
Context {F : Type} {A : Arith F}.

(** The body of the [try] block of the "Calculate Runoff" button. *)
Definition calculate_runoff (data : DataFrame F) (method : string)
  : result (DataFrame F) :=
  rainfall <- getitem data "Rainfall (mm)" ;;
  CN <- getitem data "Curve Number" ;;
  area <- getitem data "Area (sq.km)" ;;
  let '(Q, runoff_volume) :=
    if String.eqb method "SCS CN Method" then
      let S := op_scalar sub (scalar_op div (lit 25400 0) CN) (lit 254 0) in
      let Q := series_op div
                 (square (series_op sub rainfall (scalar_op mul (lit 2 1) S)))
                 (series_op add rainfall (scalar_op mul (lit 8 1) S)) in
      let runoff_volume := op_scalar mul (series_op mul Q area) (lit 1000 0) in
      (Q, runoff_volume)
    else
      let runoff_volume := op_scalar mul (series_op mul rainfall area) (lit 278 3) in
      let Q := series_op div runoff_volume area in
      (Q, runoff_volume) in
  ret [ ("Rainfall (mm)", round rainfall);
        ("Runoff (mm)", round Q);
        ("Runoff Volume (m³)", round runoff_volume) ].

(** What the user gets to see: the result table, or the message of
    [st.error] from the [except] clause. *)
Definition errors_reported (out : result (DataFrame F)) : list exn :=
  match out with
  | inl e => [e]
  | inr _ => []
  end.

End Handler.

(* ================================================================== *)
(** ** The table read row by row *)

(** The handler works on columns.  Row [i] of the uploaded table is made
    of the [i]-th elements of its three columns, row [i] of the result of
    the [i]-th elements of the three result columns. *)
Section Rows.
Context {F : Type} {A : Arith F}.

Record InputRow : Type := {
  rainfall_mm : F;
  curve_number : F;
  area_sqkm : F
}.

Record ResultRow : Type := {
  rainfall_out : F;
  runoff_mm : F;
  runoff_volume_m3 : F
}.

Fixpoint input_rows (rainfall CN area : Series F) : list InputRow :=
  match rainfall, CN, area with
  | p :: rainfall', c :: CN', a :: area' =>
      {| rainfall_mm := p; curve_number := c; area_sqkm := a |}
        :: input_rows rainfall' CN' area'
  | _, _, _ => []
  end.

Fixpoint output_rows (rainfall Q runoff_volume : Series F) : list ResultRow :=
  match rainfall, Q, runoff_volume with
  | p :: rainfall', q :: Q', v :: runoff_volume' =>
      {| rainfall_out := p; runoff_mm := q; runoff_volume_m3 := v |}
        :: output_rows rainfall' Q' runoff_volume'
  | _, _, _ => []
  end.

Definition table_rows (data : DataFrame F) : result (list InputRow) :=
  rainfall <- getitem data "Rainfall (mm)" ;;
  CN <- getitem data "Curve Number" ;;
  area <- getitem data "Area (sq.km)" ;;
  ret (input_rows rainfall CN area).

Definition result_rows (res : DataFrame F) : list ResultRow :=
  match getitem res "Rainfall (mm)",
        getitem res "Runoff (mm)",
        getitem res "Runoff Volume (m³)" with
  | inr rainfall, inr Q, inr runoff_volume =>
      output_rows rainfall Q runoff_volume
  | _, _, _ => []
  end.

(** The two formulas on one element. *)
Definition retention (CN : F) : F := sub (div (lit 25400 0) CN) (lit 254 0).

Definition initial_abstraction (CN : F) : F := mul (lit 2 1) (retention CN).

Definition scs_denominator (P CN : F) : F :=
  add P (mul (lit 8 1) (retention CN)).

Definition scs_depth (P CN : F) : F :=
  let d := sub P (initial_abstraction CN) in
  div (mul d d) (scs_denominator P CN).

Definition strange_volume (P area : F) : F := mul (mul P area) (lit 278 3).

Definition strange_depth (P area : F) : F := div (strange_volume P area) area.

Definition compute_row (method : string) (r : InputRow) : ResultRow :=
  if String.eqb method "SCS CN Method" then
    let Q := scs_depth (rainfall_mm r) (curve_number r) in
    {| rainfall_out := round2 (rainfall_mm r);
       runoff_mm := round2 Q;
       runoff_volume_m3 := round2 (mul (mul Q (area_sqkm r)) (lit 1000 0)) |}
  else
    {| rainfall_out := round2 (rainfall_mm r);
       runoff_mm := round2 (strange_depth (rainfall_mm r) (area_sqkm r));
       runoff_volume_m3 := round2 (strange_volume (rainfall_mm r) (area_sqkm r)) |}.

(** A table of one row with all three columns. *)
Definition one_row (P CN area : F) : DataFrame F :=
  [ ("Rainfall (mm)", [P]); ("Curve Number", [CN]); ("Area (sq.km)", [area]) ].

Definition has_column (data : DataFrame F) (key : string) : bool :=
  existsb (fun c => String.eqb (fst c) key) data.

End Rows.

Arguments InputRow F : clear implicits.
Arguments ResultRow F : clear implicits.

(** The rows the spec calls invalid: rainfall or area not positive, or a
    curve number outside (0, 100]. *)
Definition out_of_range (method : string) (r : InputRow Binary64.float64) : bool :=
  Binary64.leb (rainfall_mm r) Binary64.zero
  || Binary64.leb (area_sqkm r) Binary64.zero
  || (String.eqb method "SCS CN Method"
      && (Binary64.leb (curve_number r) Binary64.zero
          || Binary64.ltb (lit 100 0) (curve_number r))).

(* ================================================================== *)
(** ** Sample tables *)

Module Samples.
Import Binary64.

Definition num (m : Z) (k : nat) : float64 := lit m k.

(** Two catchments, both columns of the spec's scenarios. *)
Definition two_rows : DataFrame float64 :=
  [ ("Rainfall (mm)", [num 50 0; num 5 0]);
    ("Curve Number", [num 80 0; num 70 0]);
    ("Area (sq.km)", [num 10 0; num 1 0]) ].

Definition two_rows_input : list (InputRow float64) :=
  [ {| rainfall_mm := num 50 0; curve_number := num 80 0; area_sqkm := num 10 0 |};
    {| rainfall_mm := num 5 0; curve_number := num 70 0; area_sqkm := num 1 0 |} ].

(** The same rainfall and area, other curve numbers. *)
Definition two_rows_other_cn : DataFrame float64 :=
  [ ("Rainfall (mm)", [num 50 0; num 5 0]);
    ("Curve Number", [num 0 0; nan]);
    ("Area (sq.km)", [num 10 0; num 1 0]) ].

(** A table without the curve-number column. *)
Definition no_curve_number : DataFrame float64 :=
  [ ("Rainfall (mm)", [num 50 0]); ("Area (sq.km)", [num 10 0]) ].

End Samples.

(* ================================================================== *)
(** ** The page of [streamlit_app.py] *)

Section Page.
Context {F : Type} {A : Arith F}.

(** What one run of the script puts on the page, in order.  The data of
    the download button are the CSV text of a table; the table stands for
    them. *)
Inductive widget : Type :=
| st_title (body : string)
| st_write (body : string)
| st_file_uploader (label : string)
| st_success (body : string)
| st_dataframe (data : DataFrame F)
| st_radio (label : string) (options : list string)
| st_button (label : string)
| st_subheader (body : string)
| st_download_button (label : string) (data : DataFrame F) (file_name mime : string)
| st_error (body : string)
| st_warning (body : string)
| st_info (body : string).

(** [str(e)]: a [KeyError] prints its key between quotes. *)
Definition str_exn (e : exn) : string :=
  match e with
  | KeyError key => "'" ++ key ++ "'"
  end.

(** The script, run on the parsed upload (if any), the method chosen and
    whether "Calculate Runoff" was pressed. *)
Definition run_page (uploaded_file : option (DataFrame F)) (method : string)
           (clicked : bool) : list widget :=
  [ st_title "🌧️ RunMeter – Runoff Estimation Web App";
    st_write "Upload your input data file to calculate surface runoff using SCS CN or Strange Method.";
    st_file_uploader "📂 Upload CSV File" ]
  ++ match uploaded_file with
     | Some data =>
         [ st_success "✅ File uploaded successfully!";
           st_dataframe data;
           st_radio "Select a Method:" ["SCS CN Method"; "Strange Method"];
           st_button "Calculate Runoff" ]
         ++ (if clicked then
               match calculate_runoff data method with
               | inr result =>
                   [ st_subheader
                       (if String.eqb method "SCS CN Method"
                        then "💦 Runoff Results (SCS CN Method)"
                        else "💦 Runoff Results (Strange Method)");
                     st_dataframe result;
                     st_download_button "📥 Download Results as CSV" result
                                        "runoff_results.csv" "text/csv" ]
               | inl e =>
                   [ st_error ("Error: " ++ str_exn e);
                     st_warning "⚠️ Make sure CSV has columns: Rainfall (mm), Curve Number, Area (sq.km)" ]
               end
             else [])
     | None => [ st_info "👆 Upload a CSV file to start." ]
     end.

Definition is_download (w : widget) : bool :=
  match w with st_download_button _ _ _ _ => true | _ => false end.

Definition is_error (w : widget) : bool :=
  match w with st_error _ => true | _ => false end.

Definition is_subheader (w : widget) : bool :=
  match w with st_subheader _ => true | _ => false end.

End Page.

Arguments widget F : clear implicits.

(* ================================================================== *)
(** ** The lookups of [home.py] *)

Module Home.

(** [sep.join(parts)] and [s.split(sep)] for a one-character separator. *)
Definition join (sep : string) (parts : list string) : string :=
  String.concat sep parts.

Fixpoint split (sep : Ascii.ascii) (s : string) : list string :=
  match s with
  | EmptyString => [EmptyString]
  | String c rest =>
      if Ascii.eqb c sep then EmptyString :: split sep rest
      else match split sep rest with
           | [] => [String c EmptyString]
           | piece :: pieces => String c piece :: pieces
           end
  end.

(** [v or default] for a value that is [None] or a [str]. *)
Definition or_else (v : option string) (default : string) : string :=
  match v with
  | Some s => if String.eqb s "" then default else s
  | None => default
  end.

Definition truthy_str (v : option string) : bool :=
  match v with
  | Some s => negb (String.eqb s "")
  | None => false
  end.

Section Lookups.
Context {F : Type} {A : Arith F}.

(** Python's [float] on a string; [None] stands for its [ValueError]. *)
Variable float : string -> option F.

(** [city_query.strip()] *)
Variable strip : string -> string.

(** What [requests.get("https://ipinfo.io/json")] comes back with: an
    exception (also of [r.json()], or of reading a reply that is no
    object), a reply that is not [ok], or the [city] and [loc] entries of
    the reply, each a string, or [None] when absent or [null]. *)
Inductive ip_reply : Type :=
| ip_raised
| ip_not_ok
| ip_ok (city loc : option string).

Definition ip_lookup (reply : ip_reply) : string * F * F :=
  match reply with
  | ip_ok city_entry loc_entry =>
      let city := or_else city_entry "Unknown" in
      match split ","%char (or_else loc_entry "20,0") with
      | lat :: lon :: _ =>
          match float lat, float lon with
          | Some lat, Some lon => (city, lat, lon)
          | _, _ => ("India", lit 21 0, lit 78 0)
          end
      | _ => ("India", lit 21 0, lit 78 0)
      end
  | _ => ("India", lit 21 0, lit 78 0)
  end.

(** One place of the geocoding reply: its name parts, each a string or
    [None], and [float(d["lat"])] and [float(d["lon"])], [None] when the
    entry is missing or is no number (the [except] clause then returns
    [None]). *)
Record place : Type := {
  name : option string;
  state : option string;
  country : option string;
  lat : option F;
  lon : option F
}.

Inductive geo_reply : Type :=
| geo_raised
| geo_not_ok
| geo_ok (places : list place).

(** [[p for p in name_parts if p]] *)
Definition present (name_parts : list (option string)) : list string :=
  flat_map (fun p => match p with
                     | Some s => if String.eqb s "" then [] else [s]
                     | None => []
                     end) name_parts.

Definition geocode_city (reply : geo_reply) : option (F * F * string) :=
  match reply with
  | geo_ok (d :: _) =>
      let name_parts := [name d; state d; country d] in
      let display := join ", " (present name_parts) in
      match lat d, lon d with
      | Some lat, Some lon => Some (lat, lon, display)
      | _, _ => None
      end
  | _ => None
  end.

(** The place a query resolves to, if it does: the query is not blank, a
    key is set, and the geocoder names the place. *)
Definition resolved (city_query : string) (OWM_KEY : option string)
           (geo : geo_reply) : option (F * F * string) :=
  if negb (String.eqb (strip city_query) "") && truthy_str OWM_KEY then
    match geocode_city geo with
    | Some (lat, lon, display) =>
        if String.eqb display "" then None else Some (lat, lon, display)
    | None => None
    end
  else None.

(** The location shown on the map: lines 128 to 145 of [home.py].
    [geo] is the reply the geocoding request gets if it is made, [ip] the
    reply of the IP lookup if it is made. *)
Record map_view : Type := {
  view_lat : F;
  view_lon : F;
  target_city : option string;
  zoom_start : Z;
  notice : bool;          (* "Couldn't resolve that city..." was shown *)
  geocoded : bool;        (* [geocode_city] was called *)
  ip_looked_up : bool     (* [ip_lookup] was called *)
}.

Definition select_location (city_query : string) (OWM_KEY : option string)
           (geo : geo_reply) (ip : ip_reply) : map_view :=
  let query := negb (String.eqb (strip city_query) "") in
  let ask := query && truthy_str OWM_KEY in
  let '(lat, lon, target_city, notice) :=
    if ask then
      match geocode_city geo with
      | Some (lat, lon, display) => (lat, lon, Some display, false)
      | None => (lit 20 0, lit 0 0, None, true)
      end
    else (lit 20 0, lit 0 0, None, false) in
  let use_ip := negb query || negb (truthy_str target_city) in
  let '(lat, lon, target_city) :=
    if use_ip then
      let '(ip_city, ip_lat, ip_lon) := ip_lookup ip in
      (ip_lat, ip_lon,
       if truthy_str target_city then target_city else Some ip_city)
    else (lat, lon, target_city) in
  {| view_lat := lat; view_lon := lon; target_city := target_city;
     zoom_start := if truthy_str target_city then 6 else 2;
     notice := notice; geocoded := ask; ip_looked_up := use_ip |}.

End Lookups.

(** *** [get_weather] on the decoded reply *)
Section Weather.

(** The numbers of the reply, and which of them is zero. *)
Variable N : Type.
Variable is_zero : N -> bool.

(** [str.title] *)
Variable title : string -> string.

(** A decoded JSON value; [JNull] is Python's [None]. *)
#[local] Unset Elimination Schemes.
Inductive json : Type :=
| JNull
| JBool (b : bool)
| JNum (x : N)
| JStr (s : string)
| JList (items : list json)
| JDict (entries : list (string * json)).
#[local] Set Elimination Schemes.

Inductive error : Type :=
| AttributeError
| TypeError
| KeyError0        (* [d[0]] on a dict *)
| IndexError.

Definition attempt (X : Type) : Type := error + X.

Definition and_then {X Y : Type} (m : attempt X) (k : X -> attempt Y) : attempt Y :=
  match m with
  | inl e => inl e
  | inr x => k x
  end.

Notation "x <~ m ;; k" := (and_then m (fun x => k))
  (at level 61, m at next level, right associativity).

Definition lookup (entries : list (string * json)) (key : string) : option json :=
  match find (fun kv => String.eqb (fst kv) key) entries with
  | Some kv => Some (snd kv)
  | None => None
  end.

(** [v.get(key, default)]; only a dict has [get]. *)
Definition get (v : json) (key : string) (default : json) : attempt json :=
  match v with
  | JDict entries =>
      inr (match lookup entries key with Some x => x | None => default end)
  | _ => inl AttributeError
  end.

Definition truthy (v : json) : bool :=
  match v with
  | JNull => false
  | JBool b => b
  | JNum x => negb (is_zero x)
  | JStr s => negb (String.eqb s "")
  | JList items => match items with [] => false | _ => true end
  | JDict entries => match entries with [] => false | _ => true end
  end.

(** [v[0]].  Of a string it is its first character, a string again (its
    first byte here: the caller only needs it to be a string). *)
Definition first (v : json) : attempt json :=
  match v with
  | JList (x :: _) => inr x
  | JList [] => inl IndexError
  | JDict _ => inl KeyError0
  | JStr (String c _) => inr (JStr (String c EmptyString))
  | JStr EmptyString => inl IndexError
  | JNull | JBool _ | JNum _ => inl TypeError
  end.

Definition emoji_table : list (string * string) :=
  [ ("Thunderstorm", "⛈️"); ("Drizzle", "🌦️"); ("Rain", "🌧️"); ("Snow", "❄️");
    ("Clear", "☀️"); ("Clouds", "☁️"); ("Mist", "🌫️"); ("Smoke", "🌫️");
    ("Haze", "🌫️"); ("Dust", "🌫️"); ("Fog", "🌫️"); ("Sand", "🌫️");
    ("Ash", "🌫️"); ("Squall", "🌬️"); ("Tornado", "🌪️") ].

(** [{...}.get(weather_main, "🌍")]: a list or a dict cannot be a key. *)
Definition emoji_of (weather_main : json) : attempt string :=
  match weather_main with
  | JStr s =>
      inr (match find (fun kv => String.eqb (fst kv) s) emoji_table with
           | Some kv => snd kv
           | None => "🌍"
           end)
  | JList _ | JDict _ => inl TypeError
  | JNull | JBool _ | JNum _ => inr "🌍"
  end.

(** [(data.get("weather") or [{}])[0]] *)
Definition first_weather (data : json) : attempt json :=
  weather <~ get data "weather" JNull ;;
  first (if truthy weather then weather else JList [JDict []]).

(** The dict [get_weather] returns. *)
Record report : Type := {
  wx_name : json;
  wx_temp : json;
  wx_feels_like : json;
  wx_humidity : json;
  wx_pressure : json;
  wx_wind : json;
  wx_weather : json;
  wx_desc : json;
  wx_rain_1h : json;
  wx_rain_3h : json;
  wx_dt : json;
  wx_emoji : string
}.

(** [get_weather], from [data = r.json()] on. *)
Definition get_weather (data : json) : attempt report :=
  rain <~ get data "rain" JNull ;;
  rains <~ match rain with
           | JDict _ =>
               rain_1h <~ get rain "1h" JNull ;;
               rain_3h <~ get rain "3h" JNull ;;
               inr (rain_1h, rain_3h)
           | _ => inr (JNull, JNull)
           end ;;
  w <~ first_weather data ;;
  weather_main <~ get w "main" (JStr "") ;;
  emoji <~ emoji_of weather_main ;;
  name <~ get data "name" JNull ;;
  main <~ get data "main" (JDict []) ;;
  temp <~ get main "temp" JNull ;;
  feels_like <~ get main "feels_like" JNull ;;
  humidity <~ get main "humidity" JNull ;;
  pressure <~ get main "pressure" JNull ;;
  wind <~ get data "wind" (JDict []) ;;
  speed <~ get wind "speed" JNull ;;
  w' <~ first_weather data ;;
  description <~ get w' "description" (JStr "") ;;
  desc <~ match description with
          | JStr s => inr (JStr (title s))
          | _ => inl AttributeError
          end ;;
  dt <~ get data "dt" JNull ;;
  inr {| wx_name := name; wx_temp := temp; wx_feels_like := feels_like;
         wx_humidity := humidity; wx_pressure := pressure; wx_wind := speed;
         wx_weather := weather_main; wx_desc := desc;
         wx_rain_1h := fst rains; wx_rain_3h := snd rains;
         wx_dt := dt; wx_emoji := emoji |}.

(** The rain metric of the weather panel: its value before formatting,
    and its label. *)
Definition is_none (v : json) : bool :=
  match v with JNull => true | _ => false end.

Definition rain_val (wx : report) : json :=
  if negb (is_none (wx_rain_1h wx)) then wx_rain_1h wx
  else if negb (is_none (wx_rain_3h wx)) then wx_rain_3h wx
  else JNull.

Definition rain_label (wx : report) : string :=
  if negb (is_none (wx_rain_1h wx)) then "Rain (1h)"
  else if negb (is_none (wx_rain_3h wx)) then "Rain (3h)"
  else "Rain".

End Weather.

End Home.

(* ================================================================== *)
(** ** More sample inputs *)

Module MoreSamples.
Import Binary64 Home.

(** [Samples.two_rows] with other areas. *)
Definition two_rows_other_area : DataFrame float64 :=
  [ ("Rainfall (mm)", [Samples.num 50 0; Samples.num 5 0]);
    ("Curve Number", [Samples.num 80 0; Samples.num 70 0]);
    ("Area (sq.km)", [Samples.num 3 0; Samples.num 0 0]) ].

(** [Samples.two_rows] with a column of station numbers in the middle. *)
Definition two_rows_with_station : DataFrame float64 :=
  [ ("Rainfall (mm)", [Samples.num 50 0; Samples.num 5 0]);
    ("Station", [Samples.num 1 0; Samples.num 2 0]);
    ("Curve Number", [Samples.num 80 0; Samples.num 70 0]);
    ("Area (sq.km)", [Samples.num 10 0; Samples.num 1 0]) ].

(** Python's [float] on the two numerals of the sample location; on
    other strings it is left undefined here. *)
Definition float (s : string) : option float64 :=
  if String.eqb s "13.0827" then Some (Samples.num 130827 4)
  else if String.eqb s "80.2707" then Some (Samples.num 802707 4)
  else None.

Definition chennai : geo_reply :=
  geo_ok [ {| name := Some "Chennai"; state := Some "Tamil Nadu";
              country := Some "IN";
              lat := Some (Samples.num 130827 4);
              lon := Some (Samples.num 802707 4) |} ].

(** A weather reply with integer readings, and [str.title] on its one
    description. *)
Definition title (s : string) : string :=
  if String.eqb s "light rain" then "Light Rain" else s.

Definition reply : json Z :=
  JDict Z
    [ ("name", JStr Z "Chennai");
      ("main", JDict Z [ ("temp", JNum Z 30); ("feels_like", JNum Z 34);
                         ("humidity", JNum Z 70); ("pressure", JNum Z 1008) ]);
      ("wind", JDict Z [ ("speed", JNum Z 4) ]);
      ("weather", JList Z [ JDict Z [ ("main", JStr Z "Rain");
                                      ("description", JStr Z "light rain") ] ]);
      ("rain", JDict Z [ ("1h", JNum Z 2) ]);
      ("dt", JNum Z 1700000000) ].

Definition reading : report Z :=
  {| wx_name := JStr Z "Chennai"; wx_temp := JNum Z 30;
     wx_feels_like := JNum Z 34; wx_humidity := JNum Z 70;
     wx_pressure := JNum Z 1008; wx_wind := JNum Z 4;
     wx_weather := JStr Z "Rain"; wx_desc := JStr Z "Light Rain";
     wx_rain_1h := JNum Z 2; wx_rain_3h := JNull Z;
     wx_dt := JNum Z 1700000000; wx_emoji := "🌧️" |}.

(** The same reply with [main] set to [null]. *)
Definition reply_null_main : list (string * json Z) :=
  [ ("name", JStr Z "Chennai"); ("main", JNull Z) ].

End MoreSamples.

Module StrangeSamples.
Import Binary64.

(** Two catchments described for the Strange method: rainfall and area,
    no curve number. *)
Definition rainfall_and_area : DataFrame float64 :=
  [ ("Rainfall (mm)", [Samples.num 50 0; Samples.num 75 1]);
    ("Area (sq.km)", [Samples.num 10 0; Samples.num 3 0]) ].

(** The same two catchments with a curve-number column. *)
Definition with_curve_number : DataFrame float64 :=
  [ ("Rainfall (mm)", [Samples.num 50 0; Samples.num 75 1]);
    ("Curve Number", [Samples.num 80 0; Samples.num 70 0]);
    ("Area (sq.km)", [Samples.num 10 0; Samples.num 3 0]) ].

Definition with_curve_number_input : list (InputRow float64) :=
  [ {| rainfall_mm := Samples.num 50 0; curve_number := Samples.num 80 0;
       area_sqkm := Samples.num 10 0 |};
    {| rainfall_mm := Samples.num 75 1; curve_number := Samples.num 70 0;
       area_sqkm := Samples.num 3 0 |} ].

End StrangeSamples.

(* ================================================================== *)
(** ** Rounding to a double, as SpecFloat does it *)

Module Rounding.
Import Binary64.

(** [located num den mrs]: the record [mrs] of a mantissa, a round bit and
    a sticky bit places the rational [num / den]: the mantissa is its
    integer part, and the two bits tell whether the rest is zero, below a
    half, a half, or above a half. *)
Definition located (num den : Z) (mrs : shr_record) : Prop :=
  let m := shr_m mrs in
  0 <= m /\ m * den <= num < (m + 1) * den
  /\ match shr_r mrs, shr_s mrs with
     | false, false => num = m * den
     | false, true => m * den < num /\ 2 * num < (2 * m + 1) * den
     | true, false => 2 * num = (2 * m + 1) * den
     | true, true => (2 * m + 1) * den < 2 * num
     end.

(** The double of sign [s], mantissa [m] and exponent [e], where [m] has
    53 digits or is 2^53, as the last step of a rounding leaves it. *)
Definition pack (s : bool) (m e : Z) : float64 :=
  if m =? 2 ^ 53 then
    if e + 1 <=? emax - prec then S754_finite s (Z.to_pos (2 ^ 52)) (e + 1)
    else S754_infinity s
  else
    if e <=? emax - prec then S754_finite s (Z.to_pos m) e
    else S754_infinity s.

(** [W] is the integer that the mantissa [m] and the exponent [e] stand
    for. *)
Definition int_value (W : Z) (m : positive) (e : Z) : Prop :=
  if 0 <=? e then W = Zpos m * 2 ^ e else Zpos m = W * 2 ^ (- e).

(** [W / 100] lies in the binade of exponent [E]: scaled by [2^-E] it is
    [scaled_num / scaled_den], a number of 53 digits before the point. *)
Definition scaled_num (W E : Z) : Z := W * 2 ^ Z.max (- E) 0.
Definition scaled_den (E : Z) : Z := 100 * 2 ^ Z.max E 0.
Definition in_binade (W E : Z) : Prop :=
  2 ^ 52 * scaled_den E <= scaled_num W E < 2 ^ 53 * scaled_den E.

End Rounding.

(* ================================================================== *)
(** ** The result table as delimited text *)

(** The download of line 39 is [result.to_csv(index=False)], and the
    upload of line 10 goes through [pd.read_csv]: both are pandas', not
    this repository's.  What follows is the text format as the spec
    describes it. *)
Module Csv.
Import Binary64.

(** Modelled from the spec: the body of pandas' [to_csv] is not under
    src/; the spec has the "numeric values rendered with exactly 2 decimal
    places".  [hundredths m e] is the number of hundredths nearest to
    [m * 2^e], ties to even: the digits that a rendering of the double
    with two decimals shows. *)
Definition hundredths (m : positive) (e : Z) : Z :=
  match e with
  | Zneg p => nearest_even (100 * Zpos m) (Z.pow_pos 2 p)
  | _ => 100 * Zpos m * 2 ^ e
  end.

(** Modelled from the spec: the body of pandas' [read_csv] is not under
    src/; the spec has the displayed numeric columns re-parsed.  A numeral
    of [n] hundredths is read as the double nearest to [n / 100]: the
    quotient of the integer [n] by 100, rounded once. *)
Definition of_hundredths (s : bool) (n : Z) : float64 :=
  match n with
  | Zpos p => f_div (S754_finite s p 0) (of_Z 100)
  | _ => S754_zero s
  end.

(** Modelled from the spec: the minus sign of a rendered cell (part of
    [to_csv], not under src/). *)
Definition sign (s : bool) : string := if s then "-" else "".

(** Modelled from the spec: the character of a decimal digit (part of
    [to_csv], not under src/). *)
Definition digit (d : Z) : ascii := ascii_of_nat (48 + Z.to_nat d).

(** Modelled from the spec: a natural number in decimal digits (part of
    [to_csv], not under src/). *)
Definition decimal (n : Z) : string :=
  NilEmpty.string_of_uint (N.to_uint (Z.to_N n)).

(** Modelled from the spec: the two decimals of a rendered cell (part of
    [to_csv], not under src/). *)
Definition two_digits (n : Z) : string :=
  String (digit (n / 10)) (String (digit (n mod 10)) "").

(** Modelled from the spec: a numeral "with exactly 2 decimal places" for
    [n] hundredths (part of [to_csv], not under src/): the integer part
    in decimal digits, a point, two digits. *)
Definition numeral (s : bool) (n : Z) : string :=
  sign s ++ decimal (n / 100) ++ "." ++ two_digits (n mod 100).

(** Modelled from the spec: how [to_csv], which is not under src/, writes
    a cell of the result table, "numeric values rendered with exactly 2
    decimal places".  The spec has no words for a cell that is no number
    (NaN, an infinity); it is written by name. *)
Definition render_cell (v : float64) : string :=
  match v with
  | S754_zero s => numeral s 0
  | S754_finite s m e => numeral s (hundredths m e)
  | S754_infinity s => sign s ++ "inf"
  | S754_nan => "nan"
  end.

(** Modelled from the spec: the value of a decimal digit (part of
    [read_csv], not under src/). *)
Definition digit_value (c : ascii) : option Z :=
  let n := Z.of_nat (nat_of_ascii c) in
  if (48 <=? n) && (n <=? 57) then Some (n - 48) else None.

(** Modelled from the spec: a leading minus sign, read off (part of
    [read_csv], not under src/). *)
Definition split_sign (text : string) : bool * string :=
  match text with
  | String "-" rest => (true, rest)
  | _ => (false, text)
  end.

(** Modelled from the spec: how [read_csv], which is not under src/,
    re-parses a displayed cell: a numeral with two decimals is read as its
    number of hundredths, a non-number by its name; any other text is no
    cell of a result table. *)
Definition parse_cell (text : string) : option float64 :=
  let '(s, body) := split_sign text in
  if String.eqb body "nan" then Some S754_nan
  else if String.eqb body "inf" then Some (S754_infinity s)
  else
    match Home.split "." body with
    | [whole; String c1 (String c2 "")] =>
        match NilEmpty.uint_of_string whole, digit_value c1, digit_value c2 with
        | Some u, Some d1, Some d2 =>
            Some (of_hundredths s (100 * Z.of_N (N.of_uint u) + 10 * d1 + d2))
        | _, _, _ => None
        end
    | _ => None
    end.

(** Modelled from the spec: the end of a line of the delimited text (part
    of [to_csv], not under src/). *)
Definition newline : ascii := "010"%char.

(** Modelled from the spec: a line of the "delimited text" (part of
    [to_csv], not under src/): its fields, separated by commas. *)
Definition line (fields : list string) : string :=
  Home.join "," fields ++ String newline "".

(** Modelled from the spec: the number of rows of a table (part of
    [to_csv], not under src/). *)
Definition height (table : DataFrame float64) : nat :=
  match table with
  | [] => 0
  | (_, column) :: _ => List.length column
  end.

(** Modelled from the spec: row [i] of a table (part of [to_csv], not
    under src/). *)
Definition row_at (table : DataFrame float64) (i : nat) : list float64 :=
  map (fun column => nth i (snd column) nan) table.

(** Modelled from the spec: pandas' [to_csv(index=False)], which is not
    under src/: the table "serializable to delimited text with a header
    row", a line of the column names, then a line for each row. *)
Definition to_csv (table : DataFrame float64) : string :=
  line (map fst table)
  ++ String.concat ""
       (map (fun i => line (map render_cell (row_at table i)))
            (seq 0 (height table))).

(** Modelled from the spec: all of a list parsed, or nothing (part of
    [read_csv], not under src/). *)
Fixpoint traverse {A B : Type} (f : A -> option B) (l : list A) : option (list B) :=
  match l with
  | [] => Some []
  | x :: rest =>
      match f x, traverse f rest with
      | Some y, Some ys => Some (y :: ys)
      | _, _ => None
      end
  end.

(** Modelled from the spec: pandas' [read_csv], which is not under src/,
    on such a text: the first line names the columns, each other line
    gives one cell to each column. *)
Definition read_csv (text : string) : option (DataFrame float64) :=
  match Home.split newline text with
  | [] => None
  | header :: lines =>
      let names := Home.split "," header in
      match traverse (fun l => traverse parse_cell (Home.split "," l))
                     (removelast lines) with
      | Some rows =>
          Some (map (fun j => (nth j names "", map (fun row => nth j row nan) rows))
                    (seq 0 (List.length names)))
      | None => None
      end
  end.

(** The character [sep] does not occur in [s]. *)
Definition lacks (sep : ascii) (s : string) : Prop :=
  forall c, In c (list_ascii_of_string s) -> c <> sep.

(** A cell that re-parsing its hundredths gives back. *)
Definition two_decimals (v : float64) : Prop :=
  match v with
  | S754_finite s m e => of_hundredths s (hundredths m e) = v
  | _ => True
  end.

End Csv.


(* ================================================================== *)
(** ** Column lookup and the row-wise reading of the handler *)

Section RowLemmas.
Context {F : Type} {A : Arith F}.

Lemma getitem_length (n : nat) (data : DataFrame F) (key : string) (s : Series F) :
  well_formed n data -> getitem data key = inr s -> List.length s = n.
Proof.
  induction 1 as [| [name col] rest Hc _ IH]; simpl.
  - discriminate.
  - destruct (String.eqb name key).
    + intros E. injection E as <-. exact Hc.
    + exact IH.
Qed.

Lemma getitem_has_column (data : DataFrame F) (key : string) :
  has_column data key = false -> getitem data key = inl (KeyError key).
Proof.
  induction data as [| [name col] rest IH]; simpl.
  - reflexivity.
  - destruct (String.eqb name key); simpl.
    + discriminate.
    + exact IH.
Qed.

Lemma input_rows_length (n : nat) (rainfall CN area : Series F) :
  List.length rainfall = n -> List.length CN = n -> List.length area = n ->
  List.length (input_rows rainfall CN area) = n.
Proof.
  revert n CN area.
  induction rainfall as [| p rainfall IH]; intros n [| c CN] [| a area]; simpl;
    intros H1 H2 H3; subst n; try discriminate; try reflexivity.
  f_equal. apply IH; congruence.
Qed.

(** The SCS branch, column-wise, is [compute_row] on every row. *)
Lemma scs_columns_rows (rainfall CN area : Series F) :
  let S := op_scalar sub (scalar_op div (lit 25400 0) CN) (lit 254 0) in
  let Q := series_op div
             (square (series_op sub rainfall (scalar_op mul (lit 2 1) S)))
             (series_op add rainfall (scalar_op mul (lit 8 1) S)) in
  List.length rainfall = List.length CN ->
  List.length rainfall = List.length area ->
  output_rows (round rainfall) (round Q)
              (round (op_scalar mul (series_op mul Q area) (lit 1000 0)))
  = map (compute_row "SCS CN Method") (input_rows rainfall CN area).
Proof.
  cbv zeta. revert CN area.
  induction rainfall as [| p rainfall IH]; intros [| c CN] [| a area];
    simpl; intros H1 H2; try discriminate; try reflexivity.
  f_equal. apply IH; congruence.
Qed.

(** So is the Strange branch. *)
Lemma strange_columns_rows (method : string) (rainfall CN area : Series F) :
  String.eqb method "SCS CN Method" = false ->
  let runoff_volume := op_scalar mul (series_op mul rainfall area) (lit 278 3) in
  List.length rainfall = List.length CN ->
  List.length rainfall = List.length area ->
  output_rows (round rainfall) (round (series_op div runoff_volume area))
              (round runoff_volume)
  = map (compute_row method) (input_rows rainfall CN area).
Proof.
  intros Hm. cbv zeta. revert CN area.
  induction rainfall as [| p rainfall IH]; intros [| c CN] [| a area];
    simpl; intros H1 H2; try discriminate; try reflexivity.
  f_equal.
  - unfold compute_row. rewrite Hm. reflexivity.
  - apply IH; congruence.
Qed.

(** With its three columns present the handler does not raise, and its
    result is [compute_row] applied to each row, in order. *)
Lemma calculate_runoff_rows (n : nat) (data : DataFrame F) (method : string)
      (rows : list (InputRow F)) :
  well_formed n data ->
  table_rows data = inr rows ->
  exists res,
    calculate_runoff data method = inr res
    /\ result_rows res = map (compute_row method) rows
    /\ List.length rows = n.
Proof.
  intros Hwf. unfold table_rows, calculate_runoff.
  destruct (getitem data "Rainfall (mm)") as [e | rainfall] eqn:ER; simpl;
    [discriminate |].
  destruct (getitem data "Curve Number") as [e | CN] eqn:EC; simpl;
    [discriminate |].
  destruct (getitem data "Area (sq.km)") as [e | area] eqn:EA; simpl;
    [discriminate |].
  intros E. injection E as <-.
  pose proof (getitem_length _ _ _ _ Hwf ER) as LR.
  pose proof (getitem_length _ _ _ _ Hwf EC) as LC.
  pose proof (getitem_length _ _ _ _ Hwf EA) as LA.
  destruct (String.eqb method "SCS CN Method") eqn:Hm.
  - apply String.eqb_eq in Hm. subst method.
    eexists. split; [reflexivity |]. split.
    + unfold result_rows. simpl. apply scs_columns_rows; congruence.
    + apply input_rows_length; assumption.
  - eexists. split; [reflexivity |]. split.
    + unfold result_rows. simpl. apply strange_columns_rows; congruence.
    + apply input_rows_length; assumption.
Qed.

End RowLemmas.

(* ================================================================== *)
(** ** Rows in, rows out *)

Section Alignment.
Context {F : Type} {A : Arith F}.

Lemma has_column_getitem (data : DataFrame F) (key : string) :
  has_column data key = true -> exists s, getitem data key = inr s.
Proof.
  induction data as [| [name col] rest IH]; simpl.
  - discriminate.
  - destruct (String.eqb name key); simpl.
    + intros _. exists col. reflexivity.
    + exact IH.
Qed.

(** C5. With the three columns present, and for either method, the
    handler returns a result table with one row for each input row: the
    number of result rows plus the number of reported errors is the
    number of input rows, and result row [i] is computed from input row
    [i] alone, by [compute_row]. *)
Theorem result_rows_aligned (n : nat) (data : DataFrame F) (method : string)
        (rows : list (InputRow F)) :
  well_formed n data ->
  table_rows data = inr rows ->
  exists res,
    calculate_runoff data method = inr res
    /\ (List.length (result_rows res)
        + List.length (errors_reported (calculate_runoff data method))
        = List.length rows)%nat
    /\ forall i, nth_error (result_rows res) i
                 = option_map (compute_row method) (nth_error rows i).
Proof.
  intros Hwf Hrows.
  destruct (calculate_runoff_rows n data method rows Hwf Hrows)
    as (res & Hres & Hmap & _).
  exists res. split; [exact Hres |]. split.
  - rewrite Hres, Hmap, length_map. simpl. apply Nat.add_0_r.
  - intros i. rewrite Hmap. apply nth_error_map.
Qed.

(** C3, as the handler has it. A table without the [Curve Number] column
    is rejected under either method: the lookup of the column raises
    before the method is looked at, and the error is the one reported. *)
Theorem missing_curve_number_rejected (data : DataFrame F) (method : string) :
  has_column data "Curve Number" = false ->
  exists key,
    calculate_runoff data method = inl (KeyError key)
    /\ errors_reported (calculate_runoff data method) = [KeyError key]
    /\ (has_column data "Rainfall (mm)" = true -> key = "Curve Number").
Proof.
  intros Hcn. apply getitem_has_column in Hcn.
  unfold calculate_runoff.
  destruct (getitem data "Rainfall (mm)") as [[key] | rainfall] eqn:ER; simpl.
  - exists key. repeat split.
    intros Hr. apply has_column_getitem in Hr. destruct Hr as [s Hs].
    congruence.
  - rewrite Hcn. simpl. exists "Curve Number". repeat split.
Qed.

(** C10. Under the Strange method the outcome does not depend on the
    values of the [Curve Number] column: two tables with the same
    rainfall and area columns, each with some curve-number column, give
    the same outcome. *)
Theorem strange_ignores_curve_number (data1 data2 : DataFrame F) :
  getitem data1 "Rainfall (mm)" = getitem data2 "Rainfall (mm)" ->
  getitem data1 "Area (sq.km)" = getitem data2 "Area (sq.km)" ->
  has_column data1 "Curve Number" = true ->
  has_column data2 "Curve Number" = true ->
  calculate_runoff data1 "Strange Method"
  = calculate_runoff data2 "Strange Method".
Proof.
  intros HR HA H1 H2.
  apply has_column_getitem in H1. destruct H1 as [cn1 H1].
  apply has_column_getitem in H2. destruct H2 as [cn2 H2].
  unfold calculate_runoff. rewrite HR, HA, H1, H2.
  destruct (getitem data2 "Rainfall (mm)") as [e | rainfall]; simpl;
    [reflexivity |].
  destruct (getitem data2 "Area (sq.km)") as [e | area]; reflexivity.
Qed.

End Alignment.

Lemma result_rows_aligned_witness :
  exists res,
    calculate_runoff Samples.two_rows "Strange Method" = inr res
    /\ (List.length (result_rows res)
        + List.length (errors_reported
                         (calculate_runoff Samples.two_rows "Strange Method"))
        = List.length Samples.two_rows_input)%nat
    /\ forall i, nth_error (result_rows res) i
                 = option_map (compute_row "Strange Method")
                     (nth_error Samples.two_rows_input i).
Proof.
  apply (result_rows_aligned 2 Samples.two_rows "Strange Method"
                             Samples.two_rows_input).
  - repeat constructor.
  - reflexivity.
Defined.

(** C5, as the claim has it, fails under the Strange method: a table of
    two rows with rainfall and area, which is all the Strange formula
    uses, gives no result row and one error, the [KeyError] for the
    curve-number column, so that the two counts add up to 1, not 2. *)
Lemma strange_table_without_curve_number :
  well_formed 2 StrangeSamples.rainfall_and_area
  /\ has_column StrangeSamples.rainfall_and_area "Rainfall (mm)" = true
  /\ has_column StrangeSamples.rainfall_and_area "Area (sq.km)" = true
  /\ calculate_runoff StrangeSamples.rainfall_and_area "Strange Method"
     = inl (KeyError "Curve Number")
  /\ errors_reported
       (calculate_runoff StrangeSamples.rainfall_and_area "Strange Method")
     = [KeyError "Curve Number"]
  /\ (forall res,
        calculate_runoff StrangeSamples.rainfall_and_area "Strange Method"
        <> inr res)
  /\ (0 + List.length
            (errors_reported
               (calculate_runoff StrangeSamples.rainfall_and_area "Strange Method"))
      <> 2)%nat.
Proof.
  split; [repeat constructor |].
  repeat split; discriminate.
Qed.

Lemma missing_curve_number_rejected_witness :
  exists key,
    calculate_runoff Samples.no_curve_number "SCS CN Method" = inl (KeyError key)
    /\ errors_reported (calculate_runoff Samples.no_curve_number "SCS CN Method")
       = [KeyError key]
    /\ (has_column Samples.no_curve_number "Rainfall (mm)" = true
        -> key = "Curve Number").
Proof.
  apply (missing_curve_number_rejected Samples.no_curve_number "SCS CN Method").
  reflexivity.
Defined.

(** C3, as the claim has it, fails: the table without [Curve Number] is
    rejected under the Strange method too. *)
Lemma strange_requires_curve_number :
  has_column Samples.no_curve_number "Rainfall (mm)" = true
  /\ has_column Samples.no_curve_number "Area (sq.km)" = true
  /\ calculate_runoff Samples.no_curve_number "Strange Method"
     = inl (KeyError "Curve Number").
Proof. repeat split. Qed.

Lemma strange_ignores_curve_number_witness :
  Samples.two_rows <> Samples.two_rows_other_cn
  /\ calculate_runoff Samples.two_rows "Strange Method"
     = calculate_runoff Samples.two_rows_other_cn "Strange Method".
Proof.
  split.
  - discriminate.
  - apply (strange_ignores_curve_number Samples.two_rows Samples.two_rows_other_cn);
      reflexivity.
Defined.

(* ================================================================== *)
(** ** Signs in binary64 *)

Module Binary64Facts.
Import Binary64.

(** Rounding keeps the sign it is given. *)
Lemma binary_round_aux_sign (s : bool) (m e : Z) (l : location) :
  has_sign s (binary_round_aux prec emax s m e l).
Proof.
  unfold binary_round_aux.
  destruct (shr_fexp prec emax m e l) as [mrs' e'].
  destruct (shr_fexp prec emax _ e' loc_Exact) as [mrs'' e''].
  destruct (shr_m mrs''); [reflexivity | | exact I].
  destruct (e'' <=? emax - prec); reflexivity.
Qed.

Lemma binary_round_sign (s : bool) (m : positive) (e : Z) :
  has_sign s (binary_round prec emax s m e).
Proof.
  unfold binary_round.
  destruct (shl_align m e _) as [mz ez].
  apply binary_round_aux_sign.
Qed.

(** The sign of a product or quotient is the exclusive or of the signs. *)
Lemma has_sign_mul (a b : bool) (x y : float64) :
  has_sign a x -> has_sign b y -> has_sign (xorb a b) (f_mul x y).
Proof.
  destruct x as [sx | sx | | sx mx ex], y as [sy | sy | | sy my ey];
    simpl; intros Hx Hy; subst; try reflexivity; try exact I.
  apply binary_round_aux_sign.
Qed.

Lemma has_sign_div (a b : bool) (x y : float64) :
  has_sign a x -> has_sign b y -> has_sign (xorb a b) (f_div x y).
Proof.
  destruct x as [sx | sx | | sx mx ex], y as [sy | sy | | sy my ey];
    simpl; intros Hx Hy; subst; try reflexivity; try exact I.
  destruct (SFdiv_core_binary prec emax (Zpos mx) ex (Zpos my) ey) as [[mz ez] lz].
  apply binary_round_aux_sign.
Qed.

(** A square has its sign bit clear, whatever the sign of its root. *)
Lemma has_sign_square (x : float64) : has_sign false (f_mul x x).
Proof.
  destruct x as [s | s | | s m e]; try exact I.
  - rewrite <- (xorb_nilpotent s). apply has_sign_mul; reflexivity.
  - rewrite <- (xorb_nilpotent s). apply has_sign_mul; reflexivity.
  - rewrite <- (xorb_nilpotent s). apply has_sign_mul; reflexivity.
Qed.

Lemma has_sign_rint (b : bool) (x : float64) :
  has_sign b x -> has_sign b (f_rint x).
Proof.
  destruct x as [s | s | | s m e]; simpl; auto.
  intros ->. destruct e as [| p | p]; simpl; auto.
  destruct (nearest_even (Zpos m) (Z.pow_pos 2 p)) as [| n | n]; simpl; auto.
  apply binary_round_sign.
Qed.

Lemma has_sign_hundred : has_sign false (f_lit 100 0).
Proof. reflexivity. Qed.

Lemma has_sign_round2 (b : bool) (x : float64) :
  has_sign b x -> has_sign b (round2 x).
Proof.
  intros H. unfold round2. simpl.
  rewrite <- (xorb_false_r b).
  apply has_sign_div; [| exact has_sign_hundred].
  apply has_sign_rint.
  rewrite <- (xorb_false_r b).
  apply has_sign_mul; [exact H | exact has_sign_hundred].
Qed.

(** Signs against comparisons with zero. *)
Lemma positive_has_sign (x : float64) : ltb zero x = true -> has_sign false x.
Proof.
  destruct x as [s | s | | s m e]; simpl; try discriminate;
    destruct s; try discriminate; reflexivity.
Qed.

Lemma negative_has_sign (x : float64) : ltb x zero = true -> has_sign true x.
Proof.
  destruct x as [s | s | | s m e]; simpl; try discriminate;
    destruct s; try discriminate; reflexivity.
Qed.

Lemma sign_clear_not_negative (x : float64) :
  has_sign false x -> ltb x zero = false.
Proof.
  destruct x as [s | s | | s m e]; simpl; try reflexivity; intros ->; reflexivity.
Qed.

Lemma sign_set_not_positive (x : float64) :
  has_sign true x -> ltb zero x = false.
Proof.
  destruct x as [s | s | | s m e]; simpl; try reflexivity; intros ->; reflexivity.
Qed.

(** Equal finite values cancel. *)
Lemma sub_equal_is_zero (x y : float64) :
  eqb x y = true -> is_finite x = true -> exists s, f_sub x y = S754_zero s.
Proof.
  unfold eqb, SFeqb. intros He Hf.
  destruct x as [sx | sx | | sx mx ex], y as [sy | sy | | sy my ey];
    simpl in He, Hf; try discriminate;
    try (destruct sx; discriminate); try (destruct sy; discriminate); simpl.
  - destruct sx, sy; eexists; reflexivity.
  - assert (sx = sy /\ ex = ey /\ mx = my) as (-> & -> & ->).
    { destruct sx, sy; try discriminate;
        destruct (Z.compare_spec ex ey) as [E | E | E]; try discriminate;
        (split; [reflexivity |]); (split; [exact E |]).
      - destruct (Pos.compare_cont Eq mx my) eqn:C; try discriminate.
        apply Pos.compare_eq. exact C.
      - destruct (Pos.compare_cont Eq mx my) eqn:C; try discriminate.
        apply Pos.compare_eq. exact C. }
    rewrite Z.sub_diag. exists false. reflexivity.
Qed.

Lemma round2_zero : round2 zero = zero.
Proof. reflexivity. Qed.

(** +0 over a positive denominator is +0. *)
Lemma div_zero_positive (y : float64) :
  ltb zero y = true -> f_div zero y = zero.
Proof.
  destruct y as [s | s | | s m e]; simpl; try discriminate;
    destruct s; try discriminate; reflexivity.
Qed.

Lemma square_zero (s : bool) : f_mul (S754_zero s) (S754_zero s) = zero.
Proof. destruct s; reflexivity. Qed.

(** Division by zero raises nothing: it gives an infinity or NaN. *)
Lemma div_by_zero_not_finite (x y : float64) :
  eqb y zero = true -> is_finite (f_div x y) = false.
Proof.
  unfold eqb, SFeqb.
  destruct y as [s | s | | s m e]; simpl; try discriminate;
    try (destruct s; discriminate).
  intros _. destruct x; reflexivity.
Qed.

(** Neither does rounding an infinity or NaN: it stays what it is. *)
Lemma round2_not_finite (x : float64) :
  is_finite x = false -> is_finite (round2 x) = false.
Proof.
  destruct x as [s | s | | s m e]; simpl; try discriminate; reflexivity.
Qed.

End Binary64Facts.

(* ================================================================== *)
(** ** The SCS branch in binary64 *)

Section ScsBinary64.
Import Binary64 Binary64Facts Samples.

Lemma compute_row_scs (r : InputRow float64) :
  runoff_mm (compute_row "SCS CN Method" r)
  = round2 (scs_depth (rainfall_mm r) (curve_number r)).
Proof. reflexivity. Qed.

(** With a positive denominator the runoff shown is not negative: the
    numerator is a square. *)
Lemma scs_row_not_negative (r : InputRow float64) :
  ltb zero (scs_denominator (rainfall_mm r) (curve_number r)) = true ->
  ltb (runoff_mm (compute_row "SCS CN Method" r)) zero = false.
Proof.
  intros Hden. rewrite compute_row_scs. unfold scs_depth.
  apply sign_clear_not_negative, has_sign_round2.
  apply (has_sign_div false false).
  - apply has_sign_square.
  - apply positive_has_sign. exact Hden.
Qed.

(** At the threshold the numerator is zero, and so is the runoff shown. *)
Lemma scs_row_zero_at_threshold (r : InputRow float64) :
  eqb (rainfall_mm r) (initial_abstraction (curve_number r)) = true ->
  is_finite (rainfall_mm r) = true ->
  ltb zero (scs_denominator (rainfall_mm r) (curve_number r)) = true ->
  runoff_mm (compute_row "SCS CN Method" r) = zero.
Proof.
  intros Heq Hfin Hden. rewrite compute_row_scs. unfold scs_depth.
  destruct (sub_equal_is_zero _ _ Heq Hfin) as [s Hs].
  change (@sub float64 binary64) with f_sub. rewrite Hs.
  change (@mul float64 binary64) with f_mul. rewrite square_zero.
  change (@div float64 binary64) with f_div.
  rewrite (div_zero_positive _ Hden). apply round2_zero.
Qed.

(** C1, as the handler has it. The SCS branch has no clamp. For a row at
    or below the threshold [0.2 * S] and with a positive denominator, the
    handler raises nothing and the runoff it shows for the row is the
    rounding to two decimals of the quotient
    [(P - 0.2*S)^2 / (P + 0.8*S)], with [S = 25400/CN - 254], evaluated
    in binary64 as for any other row: a value that is never negative, and
    that is zero when the rainfall is (finite and) equal to the
    threshold. *)
Theorem scs_below_threshold_unclamped (n : nat) (data : DataFrame float64)
        (rows : list (InputRow float64)) (i : nat) (r : InputRow float64) :
  well_formed n data ->
  table_rows data = inr rows ->
  nth_error rows i = Some r ->
  leb (rainfall_mm r) (initial_abstraction (curve_number r)) = true ->
  ltb zero (scs_denominator (rainfall_mm r) (curve_number r)) = true ->
  exists res row,
    calculate_runoff data "SCS CN Method" = inr res
    /\ nth_error (result_rows res) i = Some row
    /\ (let S := f_sub (f_div (f_lit 25400 0) (curve_number r)) (f_lit 254 0) in
        let excess := f_sub (rainfall_mm r) (f_mul (f_lit 2 1) S) in
        runoff_mm row
        = round2 (f_div (f_mul excess excess)
                        (f_add (rainfall_mm r) (f_mul (f_lit 8 1) S))))
    /\ ltb (runoff_mm row) zero = false
    /\ (eqb (rainfall_mm r) (initial_abstraction (curve_number r)) = true ->
        is_finite (rainfall_mm r) = true -> runoff_mm row = zero).
Proof.
  intros Hwf Hrows Hi _ Hden.
  destruct (calculate_runoff_rows n data "SCS CN Method" rows Hwf Hrows)
    as (res & Hres & Hmap & _).
  exists res, (compute_row "SCS CN Method" r).
  rewrite Hmap, nth_error_map, Hi.
  split; [exact Hres |]. split; [reflexivity |]. split; [reflexivity |]. split.
  - apply scs_row_not_negative. exact Hden.
  - intros Heq Hfin. apply scs_row_zero_at_threshold; assumption.
Qed.

(** C7, as the handler has it. The runoff shown is least at the
    threshold: a row whose rainfall is (finite and) equal to [0.2 * S]
    shows zero, and no row of the same curve number with as much rainfall
    or more, and a positive denominator, shows less. *)
Theorem scs_least_at_threshold (P1 P2 CN area : float64) :
  eqb P1 (initial_abstraction CN) = true ->
  is_finite P1 = true ->
  ltb zero (scs_denominator P1 CN) = true ->
  leb P1 P2 = true ->
  ltb zero (scs_denominator P2 CN) = true ->
  runoff_mm (compute_row "SCS CN Method"
     {| rainfall_mm := P1; curve_number := CN; area_sqkm := area |}) = zero
  /\ ltb (runoff_mm (compute_row "SCS CN Method"
            {| rainfall_mm := P2; curve_number := CN; area_sqkm := area |}))
         (runoff_mm (compute_row "SCS CN Method"
            {| rainfall_mm := P1; curve_number := CN; area_sqkm := area |}))
     = false.
Proof.
  intros Heq Hfin Hden1 _ Hden2.
  rewrite (scs_row_zero_at_threshold
             {| rainfall_mm := P1; curve_number := CN; area_sqkm := area |}
             Heq Hfin Hden1).
  split; [reflexivity |].
  apply (scs_row_not_negative
           {| rainfall_mm := P2; curve_number := CN; area_sqkm := area |}).
  exact Hden2.
Qed.

(** C2, as the handler has it. The denominator [P + 0.8*S] is not
    checked. A row whose denominator is not positive is kept: the handler
    raises nothing, reports no error, and the row's place in the result
    holds what the division gives, a runoff that is not positive for a
    negative denominator, and an infinity or NaN for a zero one. *)
Theorem scs_denominator_unchecked (n : nat) (data : DataFrame float64)
        (rows : list (InputRow float64)) (i : nat) (r : InputRow float64) :
  well_formed n data ->
  table_rows data = inr rows ->
  nth_error rows i = Some r ->
  leb (scs_denominator (rainfall_mm r) (curve_number r)) zero = true ->
  exists res,
    calculate_runoff data "SCS CN Method" = inr res
    /\ errors_reported (calculate_runoff data "SCS CN Method") = []
    /\ List.length (result_rows res) = n
    /\ nth_error (result_rows res) i = Some (compute_row "SCS CN Method" r)
    /\ (ltb (scs_denominator (rainfall_mm r) (curve_number r)) zero = true ->
        ltb zero (runoff_mm (compute_row "SCS CN Method" r)) = false)
    /\ (eqb (scs_denominator (rainfall_mm r) (curve_number r)) zero = true ->
        is_finite (runoff_mm (compute_row "SCS CN Method" r)) = false).
Proof.
  intros Hwf Hrows Hi _.
  destruct (calculate_runoff_rows n data "SCS CN Method" rows Hwf Hrows)
    as (res & Hres & Hmap & Hlen).
  exists res. rewrite Hres, Hmap, length_map, nth_error_map, Hi.
  rewrite compute_row_scs. unfold scs_depth.
  repeat split.
  - exact Hlen.
  - intros Hneg. apply sign_set_not_positive, has_sign_round2.
    apply (has_sign_div false true).
    + apply has_sign_square.
    + apply negative_has_sign. exact Hneg.
  - intros Hzero. apply round2_not_finite.
    apply div_by_zero_not_finite. exact Hzero.
Qed.

(** C4, as the handler has it. Nothing is validated. A row with rainfall
    or area not positive, or with a curve number outside (0, 100], is
    computed like any other: the handler raises nothing and reports no
    error. *)
Theorem out_of_range_rows_computed (n : nat) (data : DataFrame float64)
        (method : string) (rows : list (InputRow float64)) (i : nat)
        (r : InputRow float64) :
  well_formed n data ->
  table_rows data = inr rows ->
  nth_error rows i = Some r ->
  out_of_range method r = true ->
  exists res,
    calculate_runoff data method = inr res
    /\ errors_reported (calculate_runoff data method) = []
    /\ nth_error (result_rows res) i = Some (compute_row method r).
Proof.
  intros Hwf Hrows Hi _.
  destruct (calculate_runoff_rows n data method rows Hwf Hrows)
    as (res & Hres & Hmap & _).
  exists res. rewrite Hres, Hmap, nth_error_map, Hi.
  repeat split.
Qed.

End ScsBinary64.

(* ================================================================== *)
(** ** The Strange branch in binary64 *)

Section StrangeBinary64.
Import Binary64 Binary64Facts.

(** C6, as the handler has it. Under the Strange method the runoff shown
    for a row is the volume over the area, rounded to two decimals, where
    the volume is [(P * area) * 0.278] before its own rounding; all of it
    is evaluated in binary64, where the product and the quotient each
    round, so the area does not cancel.  For a finite rainfall on an area
    of zero the runoff shown is NaN. *)
Theorem strange_depth_is_volume_over_area (n : nat) (data : DataFrame float64)
        (rows : list (InputRow float64)) (i : nat) (r : InputRow float64) :
  well_formed n data ->
  table_rows data = inr rows ->
  nth_error rows i = Some r ->
  exists res row,
    calculate_runoff data "Strange Method" = inr res
    /\ nth_error (result_rows res) i = Some row
    /\ (let volume := f_mul (f_mul (rainfall_mm r) (area_sqkm r)) (f_lit 278 3) in
        runoff_volume_m3 row = round2 volume
        /\ runoff_mm row = round2 (f_div volume (area_sqkm r)))
    /\ (is_finite (rainfall_mm r) = true -> eqb (area_sqkm r) zero = true ->
        runoff_mm row = nan).
Proof.
  intros Hwf Hrows Hi.
  destruct (calculate_runoff_rows n data "Strange Method" rows Hwf Hrows)
    as (res & Hres & Hmap & _).
  exists res, (compute_row "Strange Method" r).
  rewrite Hmap, nth_error_map, Hi.
  split; [exact Hres |]. split; [reflexivity |]. split; [split; reflexivity |].
  intros Hfin Hzero. destruct r as [P CN area]. simpl in *.
  destruct area as [sa | sa | | sa ma ea]; try discriminate Hzero;
    try (destruct sa; discriminate Hzero).
  destruct P as [sp | sp | | sp mp ep]; try discriminate Hfin;
    destruct sp, sa; reflexivity.
Qed.

End StrangeBinary64.

(** C1, as the claim has it, fails: 5 mm of rain on CN 70 is below the
    threshold, and the handler shows a runoff of 3.05 mm. *)
Lemma scs_below_threshold_not_clamped :
  Binary64.leb (Samples.num 5 0) (initial_abstraction (Samples.num 70 0)) = true
  /\ calculate_runoff (one_row (Samples.num 5 0) (Samples.num 70 0) (Samples.num 1 0))
                      "SCS CN Method"
     = inr [ ("Rainfall (mm)", [Samples.num 5 0]);
             ("Runoff (mm)", [Samples.num 305 2]);
             ("Runoff Volume (m³)", [Samples.num 305455 2]) ]
  /\ Binary64.eqb (Samples.num 305 2) Binary64.zero = false.
Proof. vm_compute. repeat split. Qed.

(** Below the threshold: the second row of the sample table, 5 mm on
    CN 70, is shown with the rounded quotient, 3.05 mm. *)
Lemma scs_below_threshold_unclamped_witness :
  exists res row,
    calculate_runoff Samples.two_rows "SCS CN Method" = inr res
    /\ nth_error (result_rows res) 1 = Some row
    /\ runoff_mm row = Samples.num 305 2
    /\ Binary64.ltb (runoff_mm row) Binary64.zero = false.
Proof.
  destruct (scs_below_threshold_unclamped 2 Samples.two_rows
              Samples.two_rows_input 1
              {| rainfall_mm := Samples.num 5 0; curve_number := Samples.num 70 0;
                 area_sqkm := Samples.num 1 0 |})
    as (res & row & Hres & Hrow & Hq & Hsign & _).
  - repeat constructor.
  - reflexivity.
  - reflexivity.
  - vm_compute. reflexivity.
  - vm_compute. reflexivity.
  - exists res, row. split; [exact Hres |]. split; [exact Hrow |].
    split; [| exact Hsign].
    rewrite Hq. vm_compute. reflexivity.
Defined.

(** At the threshold of CN 40, 76.2 mm, and above it, 100 mm. *)
Lemma scs_least_at_threshold_witness :
  runoff_mm (compute_row "SCS CN Method"
     {| rainfall_mm := Samples.num 762 1; curve_number := Samples.num 40 0;
        area_sqkm := Samples.num 1 0 |}) = Binary64.zero
  /\ Binary64.ltb
       (runoff_mm (compute_row "SCS CN Method"
          {| rainfall_mm := Samples.num 100 0; curve_number := Samples.num 40 0;
             area_sqkm := Samples.num 1 0 |}))
       (runoff_mm (compute_row "SCS CN Method"
          {| rainfall_mm := Samples.num 762 1; curve_number := Samples.num 40 0;
             area_sqkm := Samples.num 1 0 |})) = false.
Proof.
  apply (scs_least_at_threshold (Samples.num 762 1) (Samples.num 100 0)
                                (Samples.num 40 0) (Samples.num 1 0));
    vm_compute; reflexivity.
Defined.

(** C2, as the claim has it, fails: with CN 200 the denominator is
    negative, and the row is shown with a runoff of -110.18 mm. *)
Lemma nonpositive_denominator_row_kept :
  Binary64.leb (scs_denominator (Samples.num 50 0) (Samples.num 200 0))
               Binary64.zero = true
  /\ calculate_runoff (one_row (Samples.num 50 0) (Samples.num 200 0) (Samples.num 1 0))
                      "SCS CN Method"
     = inr [ ("Rainfall (mm)", [Samples.num 50 0]);
             ("Runoff (mm)", [Samples.num (-11018) 2]);
             ("Runoff Volume (m³)", [Samples.num (-11017752) 2]) ]
  /\ errors_reported
       (calculate_runoff (one_row (Samples.num 50 0) (Samples.num 200 0) (Samples.num 1 0))
                         "SCS CN Method") = [].
Proof. vm_compute. repeat split. Qed.

Lemma scs_denominator_unchecked_witness :
  exists res,
    calculate_runoff (one_row (Samples.num 50 0) (Samples.num 200 0) (Samples.num 1 0))
                     "SCS CN Method" = inr res
    /\ errors_reported
         (calculate_runoff (one_row (Samples.num 50 0) (Samples.num 200 0) (Samples.num 1 0))
                           "SCS CN Method") = []
    /\ List.length (result_rows res) = 1%nat
    /\ nth_error (result_rows res) 0
       = Some (compute_row "SCS CN Method"
                 {| rainfall_mm := Samples.num 50 0; curve_number := Samples.num 200 0;
                    area_sqkm := Samples.num 1 0 |}).
Proof.
  destruct (scs_denominator_unchecked 1
              (one_row (Samples.num 50 0) (Samples.num 200 0) (Samples.num 1 0))
              [ {| rainfall_mm := Samples.num 50 0; curve_number := Samples.num 200 0;
                   area_sqkm := Samples.num 1 0 |} ] 0
              {| rainfall_mm := Samples.num 50 0; curve_number := Samples.num 200 0;
                 area_sqkm := Samples.num 1 0 |})
    as (res & H1 & H2 & H3 & H4 & _).
  - repeat constructor.
  - reflexivity.
  - reflexivity.
  - vm_compute. reflexivity.
  - exists res. repeat split; assumption.
Defined.

(** C4, as the claim has it, fails: a rainfall of -5 mm is not rejected,
    the row is computed. *)
Lemma out_of_range_row_computed :
  out_of_range "SCS CN Method"
    {| rainfall_mm := Samples.num (-5) 0; curve_number := Samples.num 80 0;
       area_sqkm := Samples.num 10 0 |} = true
  /\ calculate_runoff (one_row (Samples.num (-5) 0) (Samples.num 80 0) (Samples.num 10 0))
                      "SCS CN Method"
     = inr [ ("Rainfall (mm)", [Samples.num (-5) 0]);
             ("Runoff (mm)", [Samples.num 684 2]);
             ("Runoff Volume (m³)", [Samples.num 6840393 2]) ].
Proof. vm_compute. repeat split. Qed.

Lemma out_of_range_rows_computed_witness :
  exists res,
    calculate_runoff (one_row (Samples.num (-5) 0) (Samples.num 80 0) (Samples.num 10 0))
                     "SCS CN Method" = inr res
    /\ errors_reported
         (calculate_runoff (one_row (Samples.num (-5) 0) (Samples.num 80 0) (Samples.num 10 0))
                           "SCS CN Method") = []
    /\ nth_error (result_rows res) 0
       = Some (compute_row "SCS CN Method"
                 {| rainfall_mm := Samples.num (-5) 0; curve_number := Samples.num 80 0;
                    area_sqkm := Samples.num 10 0 |}).
Proof.
  apply (out_of_range_rows_computed 1
           (one_row (Samples.num (-5) 0) (Samples.num 80 0) (Samples.num 10 0))
           "SCS CN Method"
           [ {| rainfall_mm := Samples.num (-5) 0; curve_number := Samples.num 80 0;
                area_sqkm := Samples.num 10 0 |} ] 0).
  - repeat constructor.
  - reflexivity.
  - reflexivity.
  - vm_compute. reflexivity.
Defined.

(** C8, as the claim has it, fails: for 50 mm on CN 80 the handler shows
    13.80 mm, not 13.82 mm, and 138024.80 m3, not 138200.00 m3. *)
Lemma example_row_is_not_13_82 :
  runoff_mm (compute_row "SCS CN Method"
     {| rainfall_mm := Samples.num 50 0; curve_number := Samples.num 80 0;
        area_sqkm := Samples.num 10 0 |}) <> Samples.num 1382 2
  /\ runoff_volume_m3 (compute_row "SCS CN Method"
     {| rainfall_mm := Samples.num 50 0; curve_number := Samples.num 80 0;
        area_sqkm := Samples.num 10 0 |}) <> Samples.num 138200 0.
Proof. vm_compute. split; discriminate. Qed.

(** C8, as the handler has it. For the row of 50 mm, CN 80 and 10 sq.km
    the retention is S = 63.5, and the handler shows a runoff of 13.80 mm
    and a volume of 138024.80 m3. *)
Theorem example_row_values :
  retention (Samples.num 80 0) = Samples.num 635 1
  /\ calculate_runoff (one_row (Samples.num 50 0) (Samples.num 80 0) (Samples.num 10 0))
                      "SCS CN Method"
     = inr [ ("Rainfall (mm)", [Samples.num 50 0]);
             ("Runoff (mm)", [Samples.num 1380 2]);
             ("Runoff Volume (m³)", [Samples.num 1380248 1]) ].
Proof. vm_compute. split; reflexivity. Qed.

(** C7, as the claim has it, fails, below the threshold and above it.
    On CN 70, raising the rainfall from 5 mm to 21 mm lowers the runoff
    shown from 3.05 mm to 0.01 mm.  On CN 80, far above the threshold of
    12.7 mm, the double [8950382554443282 * 2^-43] (about 1017.53 mm)
    is shown with 945.12 mm, and the next double above it with
    945.11 mm: the unrounded quotient falls by one unit in the last
    place there, across the tie between the two. *)
Lemma scs_not_monotone :
  (Binary64.leb (Samples.num 5 0) (Samples.num 21 0) = true
   /\ runoff_mm (compute_row "SCS CN Method"
        {| rainfall_mm := Samples.num 5 0; curve_number := Samples.num 70 0;
           area_sqkm := Samples.num 1 0 |}) = Samples.num 305 2
   /\ runoff_mm (compute_row "SCS CN Method"
        {| rainfall_mm := Samples.num 21 0; curve_number := Samples.num 70 0;
           area_sqkm := Samples.num 1 0 |}) = Samples.num 1 2
   /\ Binary64.ltb (Samples.num 1 2) (Samples.num 305 2) = true)
  /\ (Binary64.ltb (initial_abstraction (Samples.num 80 0))
                   (S754_finite false 8950382554443282 (-43)) = true
      /\ Binary64.ltb (S754_finite false 8950382554443282 (-43))
                      (S754_finite false 8950382554443283 (-43)) = true
      /\ runoff_mm (compute_row "SCS CN Method"
           {| rainfall_mm := S754_finite false 8950382554443282 (-43);
              curve_number := Samples.num 80 0;
              area_sqkm := Samples.num 1 0 |}) = Samples.num 94512 2
      /\ runoff_mm (compute_row "SCS CN Method"
           {| rainfall_mm := S754_finite false 8950382554443283 (-43);
              curve_number := Samples.num 80 0;
              area_sqkm := Samples.num 1 0 |}) = Samples.num 94511 2
      /\ Binary64.ltb (Samples.num 94511 2) (Samples.num 94512 2) = true).
Proof. vm_compute. repeat split. Qed.

(** The second row of the sample table, 7.5 mm on 3 sq.km: the volume
    shown is 6.26 m3 and the runoff 2.09 mm. *)
Lemma strange_depth_is_volume_over_area_witness :
  exists res row,
    calculate_runoff StrangeSamples.with_curve_number "Strange Method" = inr res
    /\ nth_error (result_rows res) 1 = Some row
    /\ runoff_volume_m3 row = Samples.num 626 2
    /\ runoff_mm row = Samples.num 209 2.
Proof.
  destruct (strange_depth_is_volume_over_area 2 StrangeSamples.with_curve_number
              StrangeSamples.with_curve_number_input 1
              {| rainfall_mm := Samples.num 75 1; curve_number := Samples.num 70 0;
                 area_sqkm := Samples.num 3 0 |})
    as (res & row & Hres & Hrow & (Hv & Hq) & _).
  - repeat constructor.
  - reflexivity.
  - reflexivity.
  - exists res, row. split; [exact Hres |]. split; [exact Hrow |]. split.
    + rewrite Hv. vm_compute. reflexivity.
    + rewrite Hq. vm_compute. reflexivity.
Defined.

(** C6, as the claim has it, fails in binary64: for 7.5 mm on 3 sq.km the
    volume over the area is 2.0850000000000004, above the product
    [7.5 * 0.278] = 2.085, and the handler shows 2.09 mm where
    [round (7.5 * 0.278, 2)] is 2.08. *)
Lemma strange_identity_fails_binary64 :
  calculate_runoff (one_row (Samples.num 75 1) (Samples.num 70 0) (Samples.num 3 0))
                   "Strange Method"
  = inr [ ("Rainfall (mm)", [Samples.num 75 1]);
          ("Runoff (mm)", [Samples.num 209 2]);
          ("Runoff Volume (m³)", [Samples.num 626 2]) ]
  /\ Binary64.ltb (mul (Samples.num 75 1) (Samples.num 278 3))
                  (strange_depth (Samples.num 75 1) (Samples.num 3 0)) = true
  /\ round2 (mul (Samples.num 75 1) (Samples.num 278 3)) = Samples.num 208 2
  /\ Binary64.eqb (Samples.num 209 2) (Samples.num 208 2) = false.
Proof. vm_compute. repeat split. Qed.

(* ================================================================== *)
(** ** Which tables the handler takes, and what it hands back *)

Section HandlerFacts.
Context {F : Type} {A : Arith F}.

Lemma getitem_present (data : DataFrame F) (key : string) :
  has_column data key = true <-> exists s, getitem data key = inr s.
Proof.
  split.
  - apply has_column_getitem.
  - intros [s Hs]. destruct (has_column data key) eqn:E; [reflexivity |].
    rewrite (getitem_has_column data key E) in Hs. discriminate.
Qed.

Lemma getitem_app_other (data1 data2 : DataFrame F) (name key : string)
      (col : Series F) :
  name <> key ->
  getitem (data1 ++ (name, col) :: data2)%list key = getitem (data1 ++ data2)%list key.
Proof.
  intros Hne. induction data1 as [| [n c] rest IH]; simpl.
  - apply String.eqb_neq in Hne. rewrite Hne. reflexivity.
  - destruct (String.eqb n key); [reflexivity | exact IH].
Qed.

Lemma round_length (s : Series F) : List.length (round s) = List.length s.
Proof. apply length_map. Qed.

Lemma series_op_length (f : F -> F -> F) (s t : Series F) :
  List.length s = List.length t ->
  List.length (series_op f s t) = List.length s.
Proof.
  revert t. induction s as [| x s IH]; intros [| y t]; simpl;
    intros H; try discriminate; try reflexivity.
  f_equal. apply IH. congruence.
Qed.

(** The handler returns a table only for an uploaded table that has the
    three columns [Rainfall (mm)], [Curve Number] and [Area (sq.km)],
    whatever the method. *)
Theorem calculate_runoff_needs_columns (data res : DataFrame F) (method : string) :
  calculate_runoff data method = inr res ->
  has_column data "Rainfall (mm)" = true
  /\ has_column data "Curve Number" = true
  /\ has_column data "Area (sq.km)" = true.
Proof.
  rewrite !getitem_present. unfold calculate_runoff. intros H.
  destruct (getitem data "Rainfall (mm)") as [e | rainfall]; [discriminate |].
  destruct (getitem data "Curve Number") as [e | CN]; [discriminate |].
  destruct (getitem data "Area (sq.km)") as [e | area]; [discriminate |].
  repeat split; eexists; reflexivity.
Qed.

(** When the handler fails, the error names the first column that is
    missing, in the order rainfall, curve number, area. *)
Theorem first_missing_column_reported (data : DataFrame F) (method key : string) :
  calculate_runoff data method = inl (KeyError key) ->
  has_column data key = false
  /\ (key = "Rainfall (mm)"
      \/ (key = "Curve Number" /\ has_column data "Rainfall (mm)" = true)
      \/ (key = "Area (sq.km)" /\ has_column data "Rainfall (mm)" = true
          /\ has_column data "Curve Number" = true)).
Proof.
  assert (Hget : forall k e, getitem data k = inl e ->
                             e = KeyError k /\ has_column data k = false).
  { intros k e. induction data as [| [n c] rest IH]; simpl.
    - intros E. injection E as <-. split; reflexivity.
    - destruct (String.eqb n k); simpl; [discriminate | exact IH]. }
  unfold calculate_runoff.
  destruct (getitem data "Rainfall (mm)") as [e | rainfall] eqn:ER; simpl.
  - intros E. injection E as ->. destruct (Hget _ _ ER) as [E' Hc].
    injection E' as ->. split; [exact Hc | left; reflexivity].
  - destruct (getitem data "Curve Number") as [e | CN] eqn:EC; simpl.
    + intros E. injection E as ->. destruct (Hget _ _ EC) as [E' Hc].
      injection E' as ->. split; [exact Hc |]. right; left.
      split; [reflexivity |]. apply getitem_present. eauto.
    + destruct (getitem data "Area (sq.km)") as [e | area] eqn:EA; simpl.
      * intros E. injection E as ->. destruct (Hget _ _ EA) as [E' Hc].
        injection E' as ->. split; [exact Hc |]. right; right.
        split; [reflexivity |]. split; apply getitem_present; eauto.
      * destruct (String.eqb method "SCS CN Method"); discriminate.
Qed.

(** The table handed back has the three columns [Rainfall (mm)],
    [Runoff (mm)] and [Runoff Volume (m³)], in this order, each as long as
    the uploaded table; for a table without rows they are empty. *)
Theorem result_frame_shape (n : nat) (data res : DataFrame F) (method : string) :
  well_formed n data ->
  calculate_runoff data method = inr res ->
  map fst res = ["Rainfall (mm)"; "Runoff (mm)"; "Runoff Volume (m³)"]
  /\ well_formed n res.
Proof.
  intros Hwf. unfold calculate_runoff.
  destruct (getitem data "Rainfall (mm)") as [e | rainfall] eqn:ER; simpl;
    [discriminate |].
  destruct (getitem data "Curve Number") as [e | CN] eqn:EC; simpl;
    [discriminate |].
  destruct (getitem data "Area (sq.km)") as [e | area] eqn:EA; simpl;
    [discriminate |].
  pose proof (getitem_length _ _ _ _ Hwf ER) as LR.
  pose proof (getitem_length _ _ _ _ Hwf EC) as LC.
  pose proof (getitem_length _ _ _ _ Hwf EA) as LA.
  destruct (String.eqb method "SCS CN Method"); intros E; injection E as <-;
    (split; [reflexivity |]); repeat constructor; simpl;
    unfold round, op_scalar, scalar_op, square;
    repeat (rewrite ?length_map; rewrite ?series_op_length);
    rewrite ?length_map; congruence.
Qed.

(** A column under any other name is ignored, wherever it stands in the
    header. *)
Theorem other_columns_ignored (data1 data2 : DataFrame F) (name : string)
        (col : Series F) (method : string) :
  name <> "Rainfall (mm)" -> name <> "Curve Number" -> name <> "Area (sq.km)" ->
  calculate_runoff (data1 ++ (name, col) :: data2)%list method
  = calculate_runoff (data1 ++ data2)%list method.
Proof.
  intros H1 H2 H3. unfold calculate_runoff.
  rewrite !getitem_app_other by assumption. reflexivity.
Qed.

(** Under the SCS method the runoff depth shown does not depend on the
    area column: only the volume does. *)
Theorem scs_depth_ignores_area (data1 data2 res1 res2 : DataFrame F) :
  getitem data1 "Rainfall (mm)" = getitem data2 "Rainfall (mm)" ->
  getitem data1 "Curve Number" = getitem data2 "Curve Number" ->
  calculate_runoff data1 "SCS CN Method" = inr res1 ->
  calculate_runoff data2 "SCS CN Method" = inr res2 ->
  getitem res1 "Runoff (mm)" = getitem res2 "Runoff (mm)"
  /\ getitem res1 "Rainfall (mm)" = getitem res2 "Rainfall (mm)".
Proof.
  intros HR HC. unfold calculate_runoff. rewrite HR, HC.
  destruct (getitem data2 "Rainfall (mm)") as [e | rainfall]; simpl;
    [discriminate |].
  destruct (getitem data2 "Curve Number") as [e | CN]; simpl; [discriminate |].
  destruct (getitem data1 "Area (sq.km)") as [e | area1]; simpl; [discriminate |].
  destruct (getitem data2 "Area (sq.km)") as [e | area2]; simpl; [discriminate |].
  intros E1 E2. injection E1 as <-. injection E2 as <-.
  split; reflexivity.
Qed.

End HandlerFacts.

(* ================================================================== *)
(** ** Missing values and zeros in binary64 *)

Section EdgesBinary64.
Import Binary64 Binary64Facts.

Lemma f_add_nan_r (x : float64) : f_add x nan = nan.
Proof. destruct x; reflexivity. Qed.

Lemma f_mul_nan_r (x : float64) : f_mul x nan = nan.
Proof. destruct x; reflexivity. Qed.

Lemma f_div_nan_r (x : float64) : f_div x nan = nan.
Proof. destruct x; reflexivity. Qed.

(** A missing rainfall (NaN) leaves the whole result row missing, under
    either method. *)
Theorem missing_rainfall_propagates (method : string) (CN area : float64) :
  compute_row method
    {| rainfall_mm := nan; curve_number := CN; area_sqkm := area |}
  = {| rainfall_out := nan; runoff_mm := nan; runoff_volume_m3 := nan |}.
Proof.
  unfold compute_row. destruct (String.eqb method "SCS CN Method"); reflexivity.
Qed.

(** A missing curve number leaves the SCS depth and volume missing; a
    missing area leaves the SCS volume and the Strange depth and volume
    missing. *)
Theorem missing_inputs_propagate (P CN area : float64) :
  runoff_mm (compute_row "SCS CN Method"
     {| rainfall_mm := P; curve_number := nan; area_sqkm := area |}) = nan
  /\ runoff_volume_m3 (compute_row "SCS CN Method"
     {| rainfall_mm := P; curve_number := nan; area_sqkm := area |}) = nan
  /\ runoff_volume_m3 (compute_row "SCS CN Method"
     {| rainfall_mm := P; curve_number := CN; area_sqkm := nan |}) = nan
  /\ runoff_mm (compute_row "Strange Method"
     {| rainfall_mm := P; curve_number := CN; area_sqkm := nan |}) = nan
  /\ runoff_volume_m3 (compute_row "Strange Method"
     {| rainfall_mm := P; curve_number := CN; area_sqkm := nan |}) = nan.
Proof.
  assert (Hdepth : scs_depth P nan = nan).
  { assert (HS : retention nan = nan) by reflexivity.
    unfold scs_depth, scs_denominator, initial_abstraction. rewrite HS.
    change (f_div (f_mul (f_sub P (f_mul (f_lit 2 1) nan))
                         (f_sub P (f_mul (f_lit 2 1) nan)))
                  (f_add P (f_mul (f_lit 8 1) nan)) = nan).
    rewrite !f_mul_nan_r, f_add_nan_r. apply f_div_nan_r. }
  repeat split.
  - change (round2 (scs_depth P nan) = nan). rewrite Hdepth. reflexivity.
  - change (round2 (f_mul (f_mul (scs_depth P nan) area) (f_lit 1000 0)) = nan).
    rewrite Hdepth. reflexivity.
  - change (round2 (f_mul (f_mul (scs_depth P CN) nan) (f_lit 1000 0)) = nan).
    rewrite f_mul_nan_r. reflexivity.
  - change (round2 (f_div (f_mul (f_mul P nan) (f_lit 278 3)) nan) = nan).
    rewrite f_div_nan_r. reflexivity.
  - change (round2 (f_mul (f_mul P nan) (f_lit 278 3)) = nan).
    rewrite f_mul_nan_r. reflexivity.
Qed.

(** A curve number of zero does not raise: [25400 / 0] is an infinity, and
    for any finite rainfall the SCS depth and volume come out as NaN. *)
Theorem zero_curve_number_gives_nan (s : bool) (P area : float64) :
  is_finite P = true ->
  runoff_mm (compute_row "SCS CN Method"
     {| rainfall_mm := P; curve_number := S754_zero s; area_sqkm := area |}) = nan
  /\ runoff_volume_m3 (compute_row "SCS CN Method"
     {| rainfall_mm := P; curve_number := S754_zero s; area_sqkm := area |}) = nan.
Proof.
  intros Hfin.
  assert (Hdepth : scs_depth P (S754_zero s) = nan)
    by (destruct P, s; try discriminate; reflexivity).
  split.
  - change (round2 (scs_depth P (S754_zero s)) = nan). rewrite Hdepth. reflexivity.
  - change (round2 (f_mul (f_mul (scs_depth P (S754_zero s)) area) (f_lit 1000 0))
            = nan).
    rewrite Hdepth. reflexivity.
Qed.

(** An area of zero does not raise under the Strange method either: for
    any finite rainfall the volume is zero and the depth, zero over zero,
    is NaN. *)
Theorem zero_area_strange (s : bool) (P CN : float64) :
  is_finite P = true ->
  runoff_mm (compute_row "Strange Method"
     {| rainfall_mm := P; curve_number := CN; area_sqkm := S754_zero s |}) = nan
  /\ eqb (runoff_volume_m3 (compute_row "Strange Method"
     {| rainfall_mm := P; curve_number := CN; area_sqkm := S754_zero s |})) zero
     = true.
Proof.
  intros Hfin.
  destruct P as [sp | sp | | sp m e]; try discriminate;
    destruct sp, s; split; reflexivity.
Qed.

End EdgesBinary64.

Lemma zero_curve_number_gives_nan_witness :
  runoff_mm (compute_row "SCS CN Method"
     {| rainfall_mm := Samples.num 50 0; curve_number := Samples.num 0 0;
        area_sqkm := Samples.num 10 0 |}) = Binary64.nan
  /\ runoff_volume_m3 (compute_row "SCS CN Method"
     {| rainfall_mm := Samples.num 50 0; curve_number := Samples.num 0 0;
        area_sqkm := Samples.num 10 0 |}) = Binary64.nan.
Proof.
  apply (zero_curve_number_gives_nan false (Samples.num 50 0) (Samples.num 10 0)).
  reflexivity.
Defined.

Lemma zero_area_strange_witness :
  runoff_mm (compute_row "Strange Method"
     {| rainfall_mm := Samples.num 50 0; curve_number := Samples.num 80 0;
        area_sqkm := Samples.num 0 0 |}) = Binary64.nan
  /\ Binary64.eqb (runoff_volume_m3 (compute_row "Strange Method"
     {| rainfall_mm := Samples.num 50 0; curve_number := Samples.num 80 0;
        area_sqkm := Samples.num 0 0 |})) Binary64.zero = true.
Proof.
  apply (zero_area_strange false (Samples.num 50 0) (Samples.num 80 0)).
  reflexivity.
Defined.

(* ================================================================== *)
(** ** What the page shows *)

Section PageFacts.
Context {F : Type} {A : Arith F}.

(** The download button is on the page exactly when a file is uploaded,
    the button was pressed and the handler returned a table; what it
    offers is that table, the one shown above it. *)
Theorem download_offers_result (uploaded_file : option (DataFrame F))
        (method : string) (clicked : bool) (label : string)
        (table : DataFrame F) (file_name mime : string) :
  In (st_download_button label table file_name mime)
     (run_page uploaded_file method clicked)
  <-> clicked = true
      /\ (exists data, uploaded_file = Some data
                       /\ calculate_runoff data method = inr table)
      /\ In (st_dataframe table) (run_page uploaded_file method clicked)
      /\ label = "📥 Download Results as CSV"
      /\ file_name = "runoff_results.csv" /\ mime = "text/csv".
Proof.
  unfold run_page. split.
  - destruct uploaded_file as [data |]; simpl.
    + destruct clicked; simpl.
      * destruct (calculate_runoff data method) as [e | result] eqn:E; simpl;
          intros H; repeat (destruct H as [H | H]; try discriminate H);
          try contradiction.
        injection H as <- <- <- <-.
        split; [reflexivity |]. split; [exists data; split; [reflexivity | exact E] |].
        split; [do 8 right; left; reflexivity | repeat split].
      * intros H; repeat (destruct H as [H | H]; try discriminate H);
          contradiction.
    + intros H; repeat (destruct H as [H | H]; try discriminate H);
        contradiction.
  - intros (-> & (data & -> & E) & _ & -> & -> & ->). simpl. rewrite E. simpl.
    do 9 right. left. reflexivity.
Qed.

(** When a column is missing, the page ends with the error, which quotes
    the name of that column, and with the warning that lists the three
    columns; no result and no download button is shown. *)
Theorem missing_column_page (data : DataFrame F) (method key : string) :
  calculate_runoff data method = inl (KeyError key) ->
  run_page (Some data) method true
  = [ st_title "🌧️ RunMeter – Runoff Estimation Web App";
      st_write "Upload your input data file to calculate surface runoff using SCS CN or Strange Method.";
      st_file_uploader "📂 Upload CSV File";
      st_success "✅ File uploaded successfully!";
      st_dataframe data;
      st_radio "Select a Method:" ["SCS CN Method"; "Strange Method"];
      st_button "Calculate Runoff";
      st_error ("Error: '" ++ key ++ "'");
      st_warning "⚠️ Make sure CSV has columns: Rainfall (mm), Curve Number, Area (sq.km)" ].
Proof.
  intros E. unfold run_page. rewrite E. reflexivity.
Qed.

(** A page never shows an error together with results, and shows neither
    before a file is uploaded and the button pressed. *)
Theorem error_or_results (uploaded_file : option (DataFrame F))
        (method : string) (clicked : bool) :
  let page := run_page uploaded_file method clicked in
  (existsb is_error page = true ->
   existsb is_download page = false /\ existsb is_subheader page = false)
  /\ (uploaded_file = None \/ clicked = false ->
      existsb is_error page = false /\ existsb is_download page = false
      /\ existsb is_subheader page = false).
Proof.
  unfold run_page. split.
  - destruct uploaded_file as [data |]; simpl; [| discriminate].
    destruct clicked; simpl; [| discriminate].
    destruct (calculate_runoff data method); simpl; [intros _ | discriminate].
    split; reflexivity.
  - intros [-> | ->]; [repeat split |].
    destruct uploaded_file; repeat split.
Qed.

End PageFacts.

Lemma error_or_results_witness :
  existsb is_download
    (run_page (Some Samples.no_curve_number) "Strange Method" true) = false
  /\ existsb is_subheader
    (run_page (Some Samples.no_curve_number) "Strange Method" true) = false.
Proof.
  refine (proj1 (error_or_results (Some Samples.no_curve_number)
                                  "Strange Method" true) _).
  vm_compute. reflexivity.
Defined.

(* ================================================================== *)
(** ** The lookups of [home.py]: where the map is centred *)

Section HomeFacts.
Import Home.
Context {F : Type} {A : Arith F}.
Variable float : string -> option F.
Variable strip : string -> string.

Lemma or_else_nonempty (v : option string) (default : string) :
  default <> "" -> or_else v default <> "".
Proof.
  intros Hd. destruct v as [s |]; simpl; [| exact Hd].
  destruct (String.eqb s "") eqn:E; [exact Hd |].
  apply String.eqb_neq. exact E.
Qed.

Lemma split_without_sep (sep : ascii) (s : string) :
  (forall c, In c (list_ascii_of_string s) -> c <> sep) ->
  split sep s = [s].
Proof.
  induction s as [| c rest IH]; simpl; intros H; [reflexivity |].
  destruct (Ascii.eqb c sep) eqn:E.
  - apply Ascii.eqb_eq in E. exfalso. apply (H c); [left; reflexivity | exact E].
  - rewrite IH; [reflexivity |]. intros c' Hc'. apply H. right. exact Hc'.
Qed.

Lemma split_at_first_sep (sep : ascii) (a b : string) :
  (forall c, In c (list_ascii_of_string a) -> c <> sep) ->
  split sep (a ++ String sep b) = a :: split sep b.
Proof.
  induction a as [| c rest IH]; simpl; intros H.
  - rewrite Ascii.eqb_refl. reflexivity.
  - destruct (Ascii.eqb c sep) eqn:E.
    + apply Ascii.eqb_eq in E. exfalso.
      apply (H c); [left; reflexivity | exact E].
    + rewrite IH; [reflexivity |]. intros c' Hc'. apply H. right. exact Hc'.
Qed.

(** [ip_lookup] always names a city: the one of the reply, ["Unknown"],
    or ["India"]. *)
Theorem ip_lookup_names_a_city (reply : ip_reply) :
  fst (fst (ip_lookup float reply)) <> "".
Proof.
  destruct reply as [| | city loc]; simpl; try discriminate.
  destruct (split "," (or_else loc "20,0")) as [| lat [| lon rest]];
    simpl; try discriminate.
  destruct (float lat); simpl; try discriminate.
  destruct (float lon); simpl; try discriminate.
  apply or_else_nonempty. discriminate.
Qed.

(** [ip_lookup] falls back to the centre of India, city included, when
    the request raises or is refused, and also when the reply has a
    location without a comma or with a coordinate [float] rejects. *)
Theorem ip_lookup_falls_back (city : option string) (loc : string) :
  ip_lookup float ip_raised = ("India", lit 21 0, lit 78 0)
  /\ ip_lookup float ip_not_ok = ("India", lit 21 0, lit 78 0)
  /\ (loc <> "" ->
      (forall c, In c (list_ascii_of_string loc) -> c <> ","%char) ->
      ip_lookup float (ip_ok city (Some loc)) = ("India", lit 21 0, lit 78 0))
  /\ (forall lat lon rest,
        loc <> "" -> split "," loc = lat :: lon :: rest ->
        float lat = None \/ float lon = None ->
        ip_lookup float (ip_ok city (Some loc)) = ("India", lit 21 0, lit 78 0)).
Proof.
  repeat split.
  - intros Hne Hc. simpl.
    apply String.eqb_neq in Hne. rewrite Hne.
    rewrite split_without_sep by exact Hc. reflexivity.
  - intros lat lon rest Hne Hs Hf. simpl.
    apply String.eqb_neq in Hne. rewrite Hne, Hs.
    destruct Hf as [-> | Hf]; [reflexivity |].
    rewrite Hf. destruct (float lat); reflexivity.
Qed.

(** [ip_lookup] reads a location ["lat,lon"]: the text before the first
    comma and the text after it up to the next one, through [float]. *)
Theorem ip_lookup_reads_loc (city : option string) (lat_text lon_text : string)
        (lat lon : F) :
  (forall c, In c (list_ascii_of_string lat_text) -> c <> ","%char) ->
  (forall c, In c (list_ascii_of_string lon_text) -> c <> ","%char) ->
  float lat_text = Some lat -> float lon_text = Some lon ->
  ip_lookup float (ip_ok city (Some (lat_text ++ "," ++ lon_text)))
  = (or_else city "Unknown", lat, lon).
Proof.
  intros Hlat Hlon Flat Flon. unfold ip_lookup.
  assert (Hne : or_else (Some (lat_text ++ "," ++ lon_text)) "20,0"
                = lat_text ++ String "," lon_text).
  { simpl. destruct lat_text; reflexivity. }
  rewrite Hne, (split_at_first_sep _ _ _ Hlat), (split_without_sep _ _ Hlon).
  rewrite Flat, Flon. reflexivity.
Qed.

(** [geocode_city] gives a place only for an accepted reply whose first
    entry has both coordinates; the name it gives is empty exactly when
    that entry has no name, no state and no country. *)
Theorem geocode_city_place (reply : geo_reply) (lat lon : F) (display : string) :
  geocode_city reply = Some (lat, lon, display) ->
  exists d rest,
    reply = geo_ok (d :: rest)
    /\ Home.lat d = Some lat /\ Home.lon d = Some lon
    /\ (display = "" <->
        truthy_str (name d) = false /\ truthy_str (state d) = false
        /\ truthy_str (country d) = false).
Proof.
  destruct reply as [| | [| d rest]]; simpl; try discriminate.
  destruct (Home.lat d) as [la |] eqn:Ela; [| discriminate].
  destruct (Home.lon d) as [lo |] eqn:Elo; [| discriminate].
  intros E. injection E as <- <- <-.
  exists d, rest.
  split; [reflexivity |]. split; [exact Ela |]. split; [exact Elo |].
  unfold join, present, truthy_str.
  destruct (name d) as [[| c s] |], (state d) as [[| c' s'] |],
    (country d) as [[| c'' s''] |]; simpl; split; intros H;
    try discriminate H; try (repeat split; reflexivity);
    destruct H as (H1 & H2 & H3); discriminate.
Qed.

(** The map is centred on the place the query resolves to, without an IP
    lookup; in every other case on what [ip_lookup] returns.  The initial
    centre (20, 0) is never what the map gets. *)
Theorem select_location_centre (city_query : string) (OWM_KEY : option string)
        (geo : geo_reply) (ip : ip_reply) :
  let view := select_location float strip city_query OWM_KEY geo ip in
  match resolved strip city_query OWM_KEY geo with
  | Some (lat, lon, display) =>
      view_lat view = lat /\ view_lon view = lon
      /\ target_city view = Some display /\ ip_looked_up view = false
  | None =>
      (fst (fst (ip_lookup float ip)), view_lat view, view_lon view)
      = ip_lookup float ip
      /\ target_city view = Some (fst (fst (ip_lookup float ip)))
      /\ ip_looked_up view = true
  end.
Proof.
  unfold resolved, select_location.
  destruct (String.eqb (strip city_query) "") eqn:Eq; simpl.
  - destruct (ip_lookup float ip) as [[c la] lo]. simpl. repeat split.
  - destruct (truthy_str OWM_KEY); simpl.
    + destruct (geocode_city geo) as [[[la lo] display] |]; simpl.
      * destruct (String.eqb display "") eqn:Ed; simpl.
        -- destruct (ip_lookup float ip) as [[c la'] lo']. simpl. repeat split.
        -- repeat split.
      * destruct (ip_lookup float ip) as [[c la'] lo']. simpl. repeat split.
    + destruct (ip_lookup float ip) as [[c la'] lo']. simpl. repeat split.
Qed.

(** The map always opens at zoom 6: a target city is always set, so the
    zoom of 2 for a missing city is never used. *)
Theorem zoom_is_always_6 (city_query : string) (OWM_KEY : option string)
        (geo : geo_reply) (ip : ip_reply) :
  zoom_start (select_location float strip city_query OWM_KEY geo ip) = 6.
Proof.
  pose proof (ip_lookup_names_a_city ip) as Hcity.
  unfold select_location.
  destruct (String.eqb (strip city_query) "") eqn:Eq; simpl.
  - destruct (ip_lookup float ip) as [[c la] lo]. simpl in *.
    apply String.eqb_neq in Hcity. rewrite Hcity. reflexivity.
  - destruct (truthy_str OWM_KEY); simpl.
    + destruct (geocode_city geo) as [[[la lo] display] |]; simpl.
      * destruct (String.eqb display "") eqn:Ed; simpl.
        -- destruct (ip_lookup float ip) as [[c la'] lo']. simpl in *.
           apply String.eqb_neq in Hcity. rewrite Hcity. reflexivity.
        -- rewrite Ed. reflexivity.
      * destruct (ip_lookup float ip) as [[c la'] lo']. simpl in *.
        apply String.eqb_neq in Hcity. rewrite Hcity. reflexivity.
    + destruct (ip_lookup float ip) as [[c la'] lo']. simpl in *.
      apply String.eqb_neq in Hcity. rewrite Hcity. reflexivity.
Qed.

(** The geocoder is asked only for a query that is not blank and with a
    key set; without a key the query is dropped without a word.  The
    notice that the city could not be resolved is shown exactly when the
    geocoder was asked and gave no place; a place without any name is
    dropped for the IP location without that notice. *)
Theorem geocoder_asked_and_notice (city_query : string) (OWM_KEY : option string)
        (geo : geo_reply) (ip : ip_reply) :
  let view := select_location float strip city_query OWM_KEY geo ip in
  geocoded view
  = negb (String.eqb (strip city_query) "") && truthy_str OWM_KEY
  /\ notice view
     = geocoded view
       && match geocode_city geo with Some _ => false | None => true end
  /\ (forall lat lon,
        geocoded view = true -> geocode_city geo = Some (lat, lon, "") ->
        notice view = false /\ ip_looked_up view = true).
Proof.
  unfold select_location.
  destruct (String.eqb (strip city_query) "") eqn:Eq;
    destruct (truthy_str OWM_KEY);
    destruct (geocode_city geo) as [[[la lo] display] |];
    try destruct (String.eqb display "") eqn:Ed;
    destruct (ip_lookup float ip) as [[c la'] lo']; simpl;
    try rewrite Ed; simpl;
    (split; [reflexivity |]); (split; [reflexivity |]);
    intros lat lon Hg E; try discriminate Hg; try discriminate E;
    try (injection E as _ _ ->; discriminate Ed);
    split; reflexivity.
Qed.

End HomeFacts.

(* ================================================================== *)
(** ** [get_weather] and the rain metric *)

Section WeatherFacts.
Import Home.
Variable N : Type.
Variable is_zero : N -> bool.
Variable title : string -> string.

(** What a reply that [get_weather] accepts went through. *)
Lemma get_weather_accepts (data : json N) (wx : report N) :
  Home.get_weather N is_zero title data = inr wx ->
  exists rain w,
    Home.get N data "rain" (JNull N) = inr rain
    /\ first_weather N is_zero data = inr w
    /\ Home.get N w "main" (JStr N "") = inr (wx_weather N wx)
    /\ emoji_of N (wx_weather N wx) = inr (wx_emoji N wx)
    /\ (wx_rain_1h N wx, wx_rain_3h N wx)
       = match rain with
         | JDict _ inner =>
             (match lookup N inner "1h" with Some x => x | None => JNull N end,
              match lookup N inner "3h" with Some x => x | None => JNull N end)
         | _ => (JNull N, JNull N)
         end.
Proof.
  unfold Home.get_weather.
  destruct (Home.get N data "rain" (JNull N)) as [e | rain];
    cbn [and_then]; [discriminate |].
  intros H. exists rain. revert H. revert rain.
  assert (Hrest : forall rains : json N * json N,
    and_then (first_weather N is_zero data) (fun w =>
    and_then (Home.get N w "main" (JStr N "")) (fun weather_main =>
    and_then (emoji_of N weather_main) (fun emoji =>
    and_then (Home.get N data "name" (JNull N)) (fun name =>
    and_then (Home.get N data "main" (JDict N [])) (fun main =>
    and_then (Home.get N main "temp" (JNull N)) (fun temp =>
    and_then (Home.get N main "feels_like" (JNull N)) (fun feels_like =>
    and_then (Home.get N main "humidity" (JNull N)) (fun humidity =>
    and_then (Home.get N main "pressure" (JNull N)) (fun pressure =>
    and_then (Home.get N data "wind" (JDict N [])) (fun wind =>
    and_then (Home.get N wind "speed" (JNull N)) (fun speed =>
    and_then (first_weather N is_zero data) (fun w' =>
    and_then (Home.get N w' "description" (JStr N "")) (fun description =>
    and_then (match description with
              | JStr _ s => inr (JStr N (title s))
              | _ => inl AttributeError
              end) (fun desc =>
    and_then (Home.get N data "dt" (JNull N)) (fun dt =>
    inr {| wx_name := name; wx_temp := temp; wx_feels_like := feels_like;
           wx_humidity := humidity; wx_pressure := pressure; wx_wind := speed;
           wx_weather := weather_main; wx_desc := desc;
           wx_rain_1h := fst rains; wx_rain_3h := snd rains;
           wx_dt := dt; wx_emoji := emoji |}))))))))))))))) = inr wx ->
    exists w,
      first_weather N is_zero data = inr w
      /\ Home.get N w "main" (JStr N "") = inr (wx_weather N wx)
      /\ emoji_of N (wx_weather N wx) = inr (wx_emoji N wx)
      /\ (wx_rain_1h N wx, wx_rain_3h N wx) = rains).
  { intros rains.
    destruct (first_weather N is_zero data) as [e | w]; cbn [and_then];
      [discriminate |].
    destruct (Home.get N w "main" (JStr N "")) as [e | wm] eqn:Ewm;
      cbn [and_then]; [discriminate |].
    destruct (emoji_of N wm) as [e | em] eqn:Eem; cbn [and_then];
      [discriminate |].
    destruct (Home.get N data "name" (JNull N)) as [e | nm]; cbn [and_then];
      [discriminate |].
    destruct (Home.get N data "main" (JDict N [])) as [e | mn]; cbn [and_then];
      [discriminate |].
    destruct (Home.get N mn "temp" (JNull N)) as [e | x1]; cbn [and_then];
      [discriminate |].
    destruct (Home.get N mn "feels_like" (JNull N)) as [e | x2]; cbn [and_then];
      [discriminate |].
    destruct (Home.get N mn "humidity" (JNull N)) as [e | x3]; cbn [and_then];
      [discriminate |].
    destruct (Home.get N mn "pressure" (JNull N)) as [e | x4]; cbn [and_then];
      [discriminate |].
    destruct (Home.get N data "wind" (JDict N [])) as [e | wd]; cbn [and_then];
      [discriminate |].
    destruct (Home.get N wd "speed" (JNull N)) as [e | x5]; cbn [and_then];
      [discriminate |].
    destruct (Home.get N w "description" (JStr N "")) as [e | ds];
      cbn [and_then]; [discriminate |].
    destruct (match ds with JStr _ _ => _ | _ => _ end) as [e | dsc];
      cbn [and_then]; [discriminate |].
    destruct (Home.get N data "dt" (JNull N)) as [e | dt]; cbn [and_then];
      [discriminate |].
    intros E. injection E as <-.
    cbn [wx_weather wx_emoji wx_rain_1h wx_rain_3h].
    exists w. split; [reflexivity |]. split; [exact Ewm |].
    split; [exact Eem |]. destruct rains; reflexivity. }
  intros rain.
  destruct rain as [| b | x | s | items | inner];
    cbn [and_then Home.get]; intros H;
    destruct (Hrest _ H) as (w & H1 & H2 & H3 & H4);
    exists w; repeat split; try reflexivity; assumption.
Qed.

Lemma emoji_of_table (weather_main : json N) (emoji : string) :
  emoji_of N weather_main = inr emoji ->
  (forall s, weather_main = JStr N s ->
             In (s, emoji) emoji_table
             \/ (emoji = "🌍" /\ forall e, ~ In (s, e) emoji_table))
  /\ ((forall s, weather_main <> JStr N s) -> emoji = "🌍").
Proof.
  intros Eem. split.
  - intros s ->. unfold emoji_of in Eem.
    destruct (find (fun kv => String.eqb (fst kv) s) emoji_table)
      as [[k v] |] eqn:Ef; injection Eem as <-.
    + left. apply find_some in Ef. destruct Ef as [Hin Hk].
      cbn [fst] in Hk. apply String.eqb_eq in Hk. subst k. exact Hin.
    + right. split; [reflexivity |]. intros e Hin.
      apply (find_none _ _ Ef) in Hin. cbn [fst] in Hin.
      rewrite String.eqb_refl in Hin. discriminate.
  - intros Hns. destruct weather_main; cbn [emoji_of] in Eem;
      try discriminate; try (injection Eem as <-; reflexivity).
    exfalso. apply (Hns s). reflexivity.
Qed.

(** A reply that is not a JSON object makes [get_weather] raise at its
    first line. *)
Theorem get_weather_needs_object (data : json N) :
  (forall entries, data <> JDict N entries) ->
  Home.get_weather N is_zero title data = inl AttributeError.
Proof.
  intros H. destruct data; try reflexivity. exfalso. apply (H entries).
  reflexivity.
Qed.

(** A reply without [weather], [main] and [wind] entries is no error:
    every reading comes out as [None], the weather as the empty string,
    the emoji as the globe. *)
Theorem get_weather_bare_reply (entries : list (string * json N)) :
  lookup N entries "weather" = None ->
  lookup N entries "main" = None ->
  lookup N entries "wind" = None ->
  exists wx,
    Home.get_weather N is_zero title (JDict N entries) = inr wx
    /\ wx_temp N wx = JNull N /\ wx_feels_like N wx = JNull N
    /\ wx_humidity N wx = JNull N /\ wx_pressure N wx = JNull N
    /\ wx_wind N wx = JNull N
    /\ wx_weather N wx = JStr N "" /\ wx_desc N wx = JStr N (title "")
    /\ wx_emoji N wx = "🌍".
Proof.
  intros Hw Hm Hwi. unfold Home.get_weather, first_weather. simpl.
  rewrite Hw, Hm, Hwi. simpl.
  destruct (lookup N entries "rain") as [[| | | | |] |]; simpl;
    eexists; repeat split.
Qed.

(** A [main] or [wind] entry that is present but no object, [null]
    included, makes [get_weather] raise, whatever else the reply holds. *)
Theorem get_weather_rejects_odd_sections (entries : list (string * json N))
        (key : string) (v : json N) :
  key = "main" \/ key = "wind" ->
  lookup N entries key = Some v ->
  (forall inner, v <> JDict N inner) ->
  exists e, Home.get_weather N is_zero title (JDict N entries) = inl e.
Proof.
  intros Hkey Hv Hnot. unfold Home.get_weather. simpl.
  destruct (match lookup N entries "rain" with
            | Some x => x | None => JNull N end) as [| | | | | rain];
    simpl;
    destruct (first_weather N is_zero (JDict N entries)) as [e | w]; simpl;
    try (eexists; reflexivity);
    destruct (Home.get N w "main" (JStr N "")) as [e | wm]; simpl;
    try (eexists; reflexivity);
    destruct (emoji_of N wm) as [e | em]; simpl;
    try (eexists; reflexivity);
    (destruct Hkey as [-> | ->]; rewrite Hv;
     [ destruct v; simpl; try (eexists; reflexivity);
       exfalso; eapply Hnot; reflexivity
     | destruct (match lookup N entries "main" with
                 | Some x => x | None => JDict N [] end); simpl;
       try (eexists; reflexivity);
       destruct v; simpl; try (eexists; reflexivity);
       exfalso; eapply Hnot; reflexivity ]).
Qed.

(** The emoji is the one the table gives for the weather, and the globe
    for any weather the table does not list. *)
Theorem get_weather_emoji (data : json N) (wx : report N) :
  Home.get_weather N is_zero title data = inr wx ->
  (forall s, wx_weather N wx = JStr N s ->
             In (s, wx_emoji N wx) emoji_table
             \/ (wx_emoji N wx = "🌍"
                 /\ forall e, ~ In (s, e) emoji_table))
  /\ ((forall s, wx_weather N wx <> JStr N s) -> wx_emoji N wx = "🌍").
Proof.
  intros H. destruct (get_weather_accepts data wx H) as (rain & w & _ & _ & _ & He & _).
  apply emoji_of_table. exact He.
Qed.

(** Without a [rain] object in the reply the panel has no rain to show:
    the value is [None] (shown as a dash) under the plain label; with one,
    the last hour goes before the last three hours. *)
Theorem rain_metric (data : json N) (wx : report N) :
  Home.get_weather N is_zero title data = inr wx ->
  ((forall inner, Home.get N data "rain" (JNull N) <> inr (JDict N inner)) ->
   rain_val N wx = JNull N /\ rain_label N wx = "Rain")
  /\ (forall inner,
        Home.get N data "rain" (JNull N) = inr (JDict N inner) ->
        wx_rain_1h N wx
        = match lookup N inner "1h" with Some x => x | None => JNull N end
        /\ wx_rain_3h N wx
           = match lookup N inner "3h" with Some x => x | None => JNull N end
        /\ (wx_rain_1h N wx <> JNull N ->
            rain_val N wx = wx_rain_1h N wx /\ rain_label N wx = "Rain (1h)")
        /\ (wx_rain_1h N wx = JNull N -> wx_rain_3h N wx <> JNull N ->
            rain_val N wx = wx_rain_3h N wx /\ rain_label N wx = "Rain (3h)")).
Proof.
  intros H.
  destruct (get_weather_accepts data wx H) as (rain & w & Hr & _ & _ & _ & Hrain).
  unfold rain_val, rain_label. split.
  - intros Hno. rewrite Hr in Hno.
    assert (E : (wx_rain_1h N wx, wx_rain_3h N wx) = (JNull N, JNull N)).
    { rewrite Hrain. destruct rain; try reflexivity.
      exfalso. apply (Hno entries). reflexivity. }
    injection E as -> ->. split; reflexivity.
  - intros inner E. rewrite Hr in E. injection E as ->.
    injection Hrain as E1 E3. split; [exact E1 |]. split; [exact E3 |].
    clear E1 E3. split.
    + intros H1. destruct (wx_rain_1h N wx); try contradiction;
        split; reflexivity.
    + intros -> H3. cbn [is_none negb].
      destruct (wx_rain_3h N wx); try contradiction; split; reflexivity.
Qed.

End WeatherFacts.

(* ================================================================== *)
(** ** The added theorems on sample inputs *)

Lemma calculate_runoff_needs_columns_witness :
  has_column Samples.two_rows "Rainfall (mm)" = true
  /\ has_column Samples.two_rows "Curve Number" = true
  /\ has_column Samples.two_rows "Area (sq.km)" = true.
Proof.
  eapply (calculate_runoff_needs_columns Samples.two_rows _ "SCS CN Method").
  vm_compute. reflexivity.
Defined.

Lemma missing_column_page_witness :
  In (st_error "Error: 'Curve Number'")
     (run_page (Some Samples.no_curve_number) "Strange Method" true).
Proof.
  rewrite (missing_column_page Samples.no_curve_number "Strange Method"
                               "Curve Number").
  - do 7 right. left. reflexivity.
  - reflexivity.
Defined.

Lemma first_missing_column_reported_witness :
  has_column Samples.no_curve_number "Curve Number" = false
  /\ ("Curve Number" = "Rainfall (mm)"
      \/ ("Curve Number" = "Curve Number"
          /\ has_column Samples.no_curve_number "Rainfall (mm)" = true)
      \/ ("Curve Number" = "Area (sq.km)"
          /\ has_column Samples.no_curve_number "Rainfall (mm)" = true
          /\ has_column Samples.no_curve_number "Curve Number" = true)).
Proof.
  apply (first_missing_column_reported Samples.no_curve_number "Strange Method").
  reflexivity.
Defined.

Lemma result_frame_shape_witness :
  exists res,
    calculate_runoff Samples.two_rows "SCS CN Method" = inr res
    /\ map fst res = ["Rainfall (mm)"; "Runoff (mm)"; "Runoff Volume (m³)"]
    /\ well_formed 2 res.
Proof.
  destruct (calculate_runoff Samples.two_rows "SCS CN Method") as [e | res] eqn:E.
  - discriminate E.
  - exists res. split; [reflexivity |].
    apply (result_frame_shape 2 Samples.two_rows res "SCS CN Method").
    + repeat constructor.
    + exact E.
Defined.

Lemma other_columns_ignored_witness :
  calculate_runoff MoreSamples.two_rows_with_station "SCS CN Method"
  = calculate_runoff Samples.two_rows "SCS CN Method".
Proof.
  apply (other_columns_ignored
           [("Rainfall (mm)", [Samples.num 50 0; Samples.num 5 0])]
           [("Curve Number", [Samples.num 80 0; Samples.num 70 0]);
            ("Area (sq.km)", [Samples.num 10 0; Samples.num 1 0])]
           "Station" [Samples.num 1 0; Samples.num 2 0] "SCS CN Method");
    discriminate.
Defined.

Lemma scs_depth_ignores_area_witness :
  exists res1 res2,
    calculate_runoff Samples.two_rows "SCS CN Method" = inr res1
    /\ calculate_runoff MoreSamples.two_rows_other_area "SCS CN Method" = inr res2
    /\ res1 <> res2
    /\ getitem res1 "Runoff (mm)" = getitem res2 "Runoff (mm)"
    /\ getitem res1 "Rainfall (mm)" = getitem res2 "Rainfall (mm)".
Proof.
  destruct (calculate_runoff Samples.two_rows "SCS CN Method")
    as [e | res1] eqn:E1; [discriminate E1 |].
  destruct (calculate_runoff MoreSamples.two_rows_other_area "SCS CN Method")
    as [e | res2] eqn:E2; [discriminate E2 |].
  exists res1, res2. split; [reflexivity |]. split; [reflexivity |]. split.
  - intros Heq. subst res2.
    assert (H : calculate_runoff Samples.two_rows "SCS CN Method"
                = calculate_runoff MoreSamples.two_rows_other_area "SCS CN Method")
      by congruence.
    vm_compute in H. discriminate H.
  - apply (scs_depth_ignores_area Samples.two_rows MoreSamples.two_rows_other_area
             res1 res2); [reflexivity | reflexivity | exact E1 | exact E2].
Defined.

Lemma ip_lookup_reads_loc_witness :
  Home.ip_lookup MoreSamples.float
    (Home.ip_ok (Some "Chennai") (Some "13.0827,80.2707"))
  = ("Chennai", Samples.num 130827 4, Samples.num 802707 4).
Proof.
  apply (ip_lookup_reads_loc MoreSamples.float (Some "Chennai")
           "13.0827" "80.2707").
  - intros c H. simpl in H.
    repeat (destruct H as [<- | H]; [discriminate |]). contradiction.
  - intros c H. simpl in H.
    repeat (destruct H as [<- | H]; [discriminate |]). contradiction.
  - reflexivity.
  - reflexivity.
Defined.

Lemma geocode_city_place_witness :
  exists d rest,
    MoreSamples.chennai = Home.geo_ok (d :: rest)
    /\ Home.lat d = Some (Samples.num 130827 4)
    /\ Home.lon d = Some (Samples.num 802707 4)
    /\ ("Chennai, Tamil Nadu, IN" = "" <->
        Home.truthy_str (Home.name d) = false
        /\ Home.truthy_str (Home.state d) = false
        /\ Home.truthy_str (Home.country d) = false).
Proof.
  apply (geocode_city_place MoreSamples.chennai). reflexivity.
Defined.

Lemma get_weather_needs_object_witness :
  Home.get_weather Z (Z.eqb 0) MoreSamples.title (Home.JList Z [])
  = inl Home.AttributeError.
Proof.
  apply (get_weather_needs_object Z (Z.eqb 0) MoreSamples.title (Home.JList Z [])).
  intros entries. discriminate.
Defined.

Lemma get_weather_bare_reply_witness :
  exists wx,
    Home.get_weather Z (Z.eqb 0) MoreSamples.title
      (Home.JDict Z [("name", Home.JStr Z "Chennai")]) = inr wx
    /\ Home.wx_temp Z wx = Home.JNull Z /\ Home.wx_feels_like Z wx = Home.JNull Z
    /\ Home.wx_humidity Z wx = Home.JNull Z /\ Home.wx_pressure Z wx = Home.JNull Z
    /\ Home.wx_wind Z wx = Home.JNull Z
    /\ Home.wx_weather Z wx = Home.JStr Z ""
    /\ Home.wx_desc Z wx = Home.JStr Z (MoreSamples.title "")
    /\ Home.wx_emoji Z wx = "🌍".
Proof.
  apply (get_weather_bare_reply Z (Z.eqb 0) MoreSamples.title
           [("name", Home.JStr Z "Chennai")]); reflexivity.
Defined.

Lemma get_weather_rejects_odd_sections_witness :
  exists e,
    Home.get_weather Z (Z.eqb 0) MoreSamples.title
      (Home.JDict Z MoreSamples.reply_null_main) = inl e.
Proof.
  apply (get_weather_rejects_odd_sections Z (Z.eqb 0) MoreSamples.title
           MoreSamples.reply_null_main "main" (Home.JNull Z)).
  - left. reflexivity.
  - reflexivity.
  - intros inner. discriminate.
Defined.

Lemma get_weather_emoji_witness :
  (forall s, Home.wx_weather Z MoreSamples.reading = Home.JStr Z s ->
             In (s, Home.wx_emoji Z MoreSamples.reading) Home.emoji_table
             \/ (Home.wx_emoji Z MoreSamples.reading = "🌍"
                 /\ forall e, ~ In (s, e) Home.emoji_table))
  /\ ((forall s, Home.wx_weather Z MoreSamples.reading <> Home.JStr Z s) ->
      Home.wx_emoji Z MoreSamples.reading = "🌍").
Proof.
  apply (get_weather_emoji Z (Z.eqb 0) MoreSamples.title MoreSamples.reply).
  reflexivity.
Defined.

Lemma rain_metric_witness :
  Home.rain_val Z MoreSamples.reading = Home.JNum Z 2
  /\ Home.rain_label Z MoreSamples.reading = "Rain (1h)".
Proof.
  destruct (rain_metric Z (Z.eqb 0) MoreSamples.title MoreSamples.reply
              MoreSamples.reading eq_refl) as [_ H].
  destruct (H [("1h", Home.JNum Z 2)] eq_refl) as (_ & _ & H1 & _).
  apply H1. discriminate.
Defined.

(* ================================================================== *)
(** ** Division by a hundred, correctly rounded *)

Section RoundingFacts.
Import Binary64 Rounding Csv.

Lemma digits2_pos_size (p : positive) : digits2_pos p = Pos.size p.
Proof. induction p; simpl; congruence. Qed.

(** The number of binary digits of a positive number. *)
Lemma digits2_bounds (p : positive) :
  2 ^ (Zpos (digits2_pos p) - 1) <= Zpos p < 2 ^ Zpos (digits2_pos p).
Proof.
  rewrite digits2_pos_size. split.
  - pose proof (Pos.size_le p) as H.
    assert (H2 : 2 ^ Zpos (Pos.size p) <= 2 * Zpos p).
    { change (2 * Zpos p) with (Zpos p~0). rewrite <- Pos2Z.inj_pow.
      apply Pos2Z.pos_le_pos. exact H. }
    replace (Zpos (Pos.size p)) with (Zpos (Pos.size p) - 1 + 1) in H2 by lia.
    rewrite Z.pow_add_r in H2 by lia. lia.
  - pose proof (Pos.size_gt p) as H.
    rewrite <- Pos2Z.inj_pow. apply Pos2Z.pos_lt_pos. exact H.
Qed.

Lemma digits2_unique (p : positive) (d : Z) :
  2 ^ (d - 1) <= Zpos p < 2 ^ d -> Zpos (digits2_pos p) = d.
Proof.
  intros [Hl Hu]. pose proof (digits2_bounds p) as [Hl' Hu'].
  assert (Hd : 0 < d).
  { destruct (Z_lt_le_dec 0 d) as [H | H]; [exact H |].
    exfalso. destruct (Z.eq_dec d 0) as [-> | Hn].
    - simpl in Hu. lia.
    - rewrite Z.pow_neg_r in Hu by lia. lia. }
  destruct (Z_lt_le_dec (Zpos (digits2_pos p)) d) as [H1 | H1].
  - exfalso. assert (2 ^ Zpos (digits2_pos p) <= 2 ^ (d - 1)).
    { apply Z.pow_le_mono_r; lia. }
    lia.
  - destruct (Z_lt_le_dec d (Zpos (digits2_pos p))) as [H2 | H2]; [| lia].
    exfalso. assert (2 ^ d <= 2 ^ (Zpos (digits2_pos p) - 1)).
    { apply Z.pow_le_mono_r; lia. }
    lia.
Qed.

(** [nearest_even] is within a half of the quotient, and it is the only
    integer strictly within a half. *)
Lemma nearest_even_bound (m d : Z) :
  0 < d -> Z.abs (2 * m - 2 * nearest_even m d * d) <= d.
Proof.
  intros Hd. unfold nearest_even.
  pose proof (Z.div_mod m d ltac:(lia)) as E.
  pose proof (Z.mod_pos_bound m d Hd) as B.
  remember (m / d) as q eqn:Eq. remember (m mod d) as r eqn:Er.
  clear Eq Er. subst m.
  destruct (Z.compare_spec (2 * r) d) as [C | C | C].
  - destruct (Z.even q); lia.
  - lia.
  - lia.
Qed.

Lemma nearest_even_unique (m d k : Z) :
  0 < d -> Z.abs (2 * m - 2 * k * d) < d -> nearest_even m d = k.
Proof.
  intros Hd Hk. unfold nearest_even.
  pose proof (Z.div_mod m d ltac:(lia)) as E.
  pose proof (Z.mod_pos_bound m d Hd) as B.
  remember (m / d) as q eqn:Eq. remember (m mod d) as r eqn:Er.
  clear Eq Er. subst m.
  apply Z.abs_lt in Hk. destruct Hk as [Hk1 Hk2].
  destruct (Z.compare_spec (2 * r) d) as [C | C | C].
  - exfalso. destruct (Z_lt_le_dec q k); nia.
  - destruct (Z_lt_le_dec q k); [| destruct (Z_lt_le_dec k q)]; nia.
  - destruct (Z_lt_le_dec (q + 1) k); [| destruct (Z_lt_le_dec k (q + 1))]; nia.
Qed.

Lemma nearest_even_exact (k d : Z) : 0 < d -> nearest_even (k * d) d = k.
Proof.
  intros Hd. apply nearest_even_unique; [exact Hd |].
  replace (2 * (k * d) - 2 * k * d) with 0 by ring. simpl. exact Hd.
Qed.

Lemma nearest_even_scale (m d c : Z) :
  0 < d -> 0 < c -> nearest_even (c * m) (c * d) = nearest_even m d.
Proof.
  intros Hd Hc. unfold nearest_even.
  rewrite Z.div_mul_cancel_l by lia.
  rewrite Z.mul_mod_distr_l by lia.
  replace (2 * (c * (m mod d))) with (c * (2 * (m mod d))) by ring.
  rewrite <- Zmult_compare_compat_l by lia. reflexivity.
Qed.

Lemma nearest_even_ratio (a b a' b' : Z) :
  0 < b -> 0 < b' -> a * b' = a' * b -> nearest_even a b = nearest_even a' b'.
Proof.
  intros Hb Hb' E.
  rewrite <- (nearest_even_scale a b b') by assumption.
  rewrite <- (nearest_even_scale a' b' b) by assumption.
  f_equal; lia.
Qed.

Lemma nearest_even_mono (m d lo hi : Z) :
  0 < d -> lo * d <= m -> m <= hi * d -> lo <= nearest_even m d <= hi.
Proof.
  intros Hd Hlo Hhi. unfold nearest_even.
  pose proof (Z.div_mod m d ltac:(lia)) as E.
  pose proof (Z.mod_pos_bound m d Hd) as B.
  assert (lo <= m / d) by (apply Z.div_le_lower_bound; lia).
  assert (m / d <= hi) by (apply Z.div_le_upper_bound; lia).
  destruct (Z.compare_spec (2 * (m mod d)) d) as [C | C | C].
  - destruct (Z.even (m / d)); nia.
  - lia.
  - nia.
Qed.

Lemma shr_1_located (num den : Z) (mrs : shr_record) :
  0 < den -> located num den mrs -> located num (2 * den) (shr_1 mrs).
Proof.
  intros Hd. destruct mrs as [m r s]. unfold located.
  cbn [shr_m shr_r shr_s]. intros (Hm & Hb & Hl).
  destruct m as [| p | p]; [| | lia].
  - destruct r, s; cbn [shr_1 shr_m shr_r shr_s orb]; lia.
  - destruct p as [p | p |].
    + change (Zpos p~1) with (2 * Zpos p + 1) in Hm, Hb, Hl.
      destruct r, s; cbn [shr_1 shr_m shr_r shr_s orb]; lia.
    + change (Zpos p~0) with (2 * Zpos p) in Hm, Hb, Hl.
      destruct r, s; cbn [shr_1 shr_m shr_r shr_s orb]; lia.
    + destruct r, s; cbn [shr_1 shr_m shr_r shr_s orb]; lia.
Qed.

Lemma iter_shr_1_located (p : positive) (num den : Z) (mrs : shr_record) :
  0 < den -> located num den mrs ->
  located num (2 ^ Zpos p * den) (SpecFloat.iter_pos shr_1 p mrs).
Proof.
  revert den mrs. induction p as [p IH | p IH |]; intros den mrs Hd H; simpl SpecFloat.iter_pos.
  - change (Zpos p~1) with (2 * Zpos p + 1).
    replace (2 ^ (2 * Zpos p + 1) * den)
      with (2 ^ Zpos p * (2 ^ Zpos p * (2 * den))).
    + apply IH; [| apply IH; [lia | apply shr_1_located; assumption]].
      pose proof (Z.pow_pos_nonneg 2 (Zpos p)). lia.
    + rewrite Z.pow_add_r, Z.pow_mul_r by lia.
      change (2 ^ 2) with 4. change (2 ^ 1) with 2.
      replace 4 with (2 * 2) by reflexivity.
      rewrite Z.pow_mul_l. ring.
  - change (Zpos p~0) with (2 * Zpos p).
    replace (2 ^ (2 * Zpos p) * den) with (2 ^ Zpos p * (2 ^ Zpos p * den)).
    + apply IH; [| apply IH; assumption].
      pose proof (Z.pow_pos_nonneg 2 (Zpos p)). lia.
    + rewrite Z.pow_mul_r by lia. change (2 ^ 2) with 4.
      replace 4 with (2 * 2) by reflexivity.
      rewrite Z.pow_mul_l. ring.
  - change (2 ^ 1) with 2. apply shr_1_located; assumption.
Qed.

Lemma located_mantissa (num den : Z) (mrs : shr_record) :
  0 < den -> located num den mrs ->
  num / den = shr_m mrs /\ num mod den = num - shr_m mrs * den.
Proof.
  intros Hd (Hm & Hb & _).
  assert (E : shr_m mrs = num / den).
  { apply Z.div_unique with (r := num - shr_m mrs * den); lia. }
  split; [congruence |].
  rewrite Z.mod_eq by lia. rewrite <- E. ring.
Qed.

Lemma round_nearest_even_located (num den : Z) (mrs : shr_record) :
  0 < den -> located num den mrs ->
  round_nearest_even (shr_m mrs) (loc_of_shr_record mrs) = nearest_even num den.
Proof.
  intros Hd H. destruct (located_mantissa num den mrs Hd H) as [Eq Er].
  destruct H as (Hm & Hb & Hl). unfold nearest_even. rewrite Eq, Er.
  destruct mrs as [m r s]. cbn [shr_m shr_r shr_s] in *.
  destruct (Z.compare_spec (2 * (num - m * den)) den) as [C | C | C];
    destruct r, s; cbn [loc_of_shr_record round_nearest_even]; try reflexivity;
    exfalso; lia.
Qed.

Lemma fexp_normal (x : Z) : -1074 <= x - 53 -> fexp prec emax x = x - 53.
Proof. unfold fexp, emin, prec, emax. lia. Qed.

Lemma Zdigits2_unique (m d : Z) : 2 ^ (d - 1) <= m < 2 ^ d -> 0 < m -> Zdigits2 m = d.
Proof.
  intros H Hm. destruct m as [| p | p]; try lia.
  simpl. apply digits2_unique. exact H.
Qed.

Lemma Zdigits2_bounds (m : Z) :
  0 < m -> 2 ^ (Zdigits2 m - 1) <= m < 2 ^ Zdigits2 m.
Proof.
  intros Hm. destruct m as [| p | p]; try lia.
  simpl. apply digits2_bounds.
Qed.

Lemma located_of_loc (num den m : Z) (l : location) :
  located num den (shr_record_of_loc m l) ->
  0 <= m /\ m * den <= num < (m + 1) * den.
Proof.
  unfold located. destruct l as [| []]; cbn [shr_record_of_loc shr_m]; tauto.
Qed.

(** Rounding a located positive rational whose integer part has 53
    digits or more: the result is the nearest mantissa of 53 digits, ties
    to even, at the exponent that leaves 53 digits. *)
Lemma binary_round_aux_normal (s : bool) (m e : Z) (l : location) (num den : Z) :
  0 < den ->
  located num den (shr_record_of_loc m l) ->
  53 <= Zdigits2 m ->
  -1074 <= Zdigits2 m + e - 53 ->
  let n := Zdigits2 m - 53 in
  binary_round_aux prec emax s m e l
  = pack s (nearest_even num (2 ^ n * den)) (e + n)
  /\ 2 ^ 52 * (2 ^ n * den) <= num < 2 ^ 53 * (2 ^ n * den).
Proof.
  intros Hd Hloc Hdig Hexp n.
  assert (Hn : 0 <= n) by (unfold n; lia).
  assert (Hp : 0 < 2 ^ n) by (apply Z.pow_pos_nonneg; lia).
  destruct (located_of_loc _ _ _ _ Hloc) as [Hm0 Hb].
  assert (Hm : 0 < m).
  { destruct m as [| p | p]; [simpl in Hdig; lia | lia | lia]. }
  pose proof (Zdigits2_bounds m Hm) as [Hlo Hhi].
  replace (Zdigits2 m - 1) with (52 + n) in Hlo by (unfold n; lia).
  replace (Zdigits2 m) with (53 + n) in Hhi by (unfold n; lia).
  rewrite Z.pow_add_r in Hlo, Hhi by lia.
  assert (Hnum : 2 ^ 52 * (2 ^ n * den) <= num < 2 ^ 53 * (2 ^ n * den)) by nia.
  split; [| exact Hnum].
  unfold binary_round_aux, shr_fexp.
  rewrite fexp_normal by lia.
  replace (Zdigits2 m + e - 53 - e) with n by (unfold n; lia).
  assert (Hshr : exists mrs1,
             shr (shr_record_of_loc m l) e n = (mrs1, e + n)
             /\ located num (2 ^ n * den) mrs1).
  { destruct n as [| p | p] eqn:En; [| | lia].
    - exists (shr_record_of_loc m l). split.
      + simpl. f_equal. lia.
      + change (2 ^ 0) with 1. rewrite Z.mul_1_l. exact Hloc.
    - exists (SpecFloat.iter_pos shr_1 p (shr_record_of_loc m l)). split.
      + reflexivity.
      + apply iter_shr_1_located; assumption. }
  destruct Hshr as (mrs1 & -> & Hloc1).
  rewrite (round_nearest_even_located num (2 ^ n * den) mrs1) by (try lia; assumption).
  set (m0 := nearest_even num (2 ^ n * den)).
  assert (Hm0b : 2 ^ 52 <= m0 <= 2 ^ 53).
  { apply nearest_even_mono; lia. }
  unfold pack.
  destruct (Z.eqb_spec m0 (2 ^ 53)) as [E | E].
  - rewrite E.
    replace (Zdigits2 (2 ^ 53)) with 54 by reflexivity.
    rewrite fexp_normal by lia.
    replace (54 + (e + n) - 53 - (e + n)) with 1 by lia.
    reflexivity.
  - assert (Hdig0 : Zdigits2 m0 = 53).
    { apply Zdigits2_unique; [| lia]. change (53 - 1) with 52. lia. }
    rewrite Hdig0. rewrite fexp_normal by lia.
    replace (53 + (e + n) - 53 - (e + n)) with 0 by lia.
    cbn [shr shr_record_of_loc shr_m].
    destruct m0 as [| p0 | p0]; [lia | | lia].
    reflexivity.
Qed.

Lemma new_location_located (m' m2 : Z) :
  0 <= m' -> 0 < m2 ->
  located m' m2 (shr_record_of_loc (m' / m2) (new_location m2 (m' mod m2))).
Proof.
  intros Hm' Hm2.
  pose proof (Z.div_mod m' m2 ltac:(lia)) as E.
  pose proof (Z.mod_pos_bound m' m2 Hm2) as B.
  assert (Hq : 0 <= m' / m2) by (apply Z.div_pos; lia).
  remember (m' / m2) as q eqn:Eq. remember (m' mod m2) as r eqn:Er.
  clear Eq Er. subst m'.
  unfold new_location, new_location_even, new_location_odd, located.
  destruct (Z.even m2) eqn:Ev.
  - destruct (Z.eqb_spec r 0) as [-> | Hr].
    + cbn [shr_record_of_loc shr_m shr_r shr_s]. lia.
    + destruct (Z.compare_spec (2 * r) m2) as [C | C | C];
        cbn [shr_record_of_loc shr_m shr_r shr_s]; lia.
  - assert (Hodd : Z.odd m2 = true) by (rewrite <- Z.negb_even, Ev; reflexivity).
    apply Z.odd_spec in Hodd. destruct Hodd as [k Hk].
    destruct (Z.eqb_spec r 0) as [-> | Hr].
    + cbn [shr_record_of_loc shr_m shr_r shr_s]. lia.
    + destruct (Z.compare_spec (2 * r + 1) m2) as [C | C | C];
        cbn [shr_record_of_loc shr_m shr_r shr_s]; lia.
Qed.

Lemma Zdigits2_lower (q k : Z) : 0 <= k -> 2 ^ k <= q -> k + 1 <= Zdigits2 q.
Proof.
  intros Hk Hq.
  assert (Hq0 : 0 < q) by (pose proof (Z.pow_pos_nonneg 2 k); lia).
  pose proof (Zdigits2_bounds q Hq0) as [_ Hhi].
  destruct (Z_lt_le_dec (Zdigits2 q) (k + 1)) as [H | H]; [| exact H].
  exfalso. assert (2 ^ Zdigits2 q <= 2 ^ k) by (apply Z.pow_le_mono_r; lia).
  lia.
Qed.

(** The quotient of two finite doubles, away from underflow: the nearest
    mantissa of 53 digits to the exact quotient, scaled to its binade. *)
Lemma SFdiv_normal (s1 s2 : bool) (m1 m2 : positive) (e1 e2 : Z) :
  -1074 <= Zpos (digits2_pos m1) + e1 - (Zpos (digits2_pos m2) + e2) - 53 ->
  exists sh n,
    0 <= sh /\ 0 <= n
    /\ 2 ^ 52 * (2 ^ n * Zpos m2) <= Zpos m1 * 2 ^ sh
       < 2 ^ 53 * (2 ^ n * Zpos m2)
    /\ SFdiv prec emax (S754_finite s1 m1 e1) (S754_finite s2 m2 e2)
       = pack (xorb s1 s2)
              (nearest_even (Zpos m1 * 2 ^ sh) (2 ^ n * Zpos m2))
              (e1 - e2 - sh + n).
Proof.
  intros HD. set (d1 := Zpos (digits2_pos m1)) in *.
  set (d2 := Zpos (digits2_pos m2)) in *.
  set (D := d1 + e1 - (d2 + e2)) in *.
  unfold SFdiv, SFdiv_core_binary.
  change (Zdigits2 (Zpos m1)) with d1. change (Zdigits2 (Zpos m2)) with d2.
  fold D. rewrite fexp_normal by lia.
  set (e' := Z.min (D - 53) (e1 - e2)).
  set (sh := e1 - e2 - e').
  assert (Hsh : 0 <= sh) by (unfold sh, e'; lia).
  set (m' := match sh with
             | 0 => Zpos m1
             | Zpos _ => Z.shiftl (Zpos m1) sh
             | Zneg _ => 0
             end).
  assert (Em' : m' = Zpos m1 * 2 ^ sh).
  { unfold m'. destruct sh as [| p | p] eqn:Es; [| | lia].
    - change (2 ^ 0) with 1. lia.
    - apply Z.shiftl_mul_pow2. lia. }
  assert (Hdiv : Z.div_eucl m' (Zpos m2) = (m' / Zpos m2, m' mod Zpos m2)).
  { unfold Z.div, Z.modulo. destruct (Z.div_eucl m' (Zpos m2)). reflexivity. }
  rewrite Hdiv.
  pose proof (digits2_bounds m1) as [Hl1 Hh1]. fold d1 in Hl1, Hh1.
  pose proof (digits2_bounds m2) as [Hl2 Hh2]. fold d2 in Hl2, Hh2.
  assert (Hd1 : 0 < d1) by (unfold d1; lia).
  assert (Hd2 : 0 < d2) by (unfold d2; lia).
  set (k := D - 1 - e').
  assert (Hk : 52 <= k) by (unfold k, e'; lia).
  assert (Hpow : 0 < 2 ^ sh) by (apply Z.pow_pos_nonneg; lia).
  assert (Hm'pos : 0 < m') by (rewrite Em'; lia).
  assert (Hge : 2 ^ k * 2 ^ d2 <= m').
  { rewrite Em'. rewrite <- Z.pow_add_r by lia.
    replace (k + d2) with (d1 - 1 + sh) by (unfold k, sh, D; lia).
    rewrite Z.pow_add_r by lia.
    apply Z.mul_le_mono_nonneg_r; lia. }
  assert (Hq : 2 ^ k <= m' / Zpos m2).
  { apply Z.div_le_lower_bound; [lia |].
    assert (0 < 2 ^ k) by (apply Z.pow_pos_nonneg; lia). nia. }
  pose proof (Zdigits2_lower (m' / Zpos m2) k ltac:(lia) Hq) as Hdq.
  destruct (binary_round_aux_normal (xorb s1 s2) (m' / Zpos m2) e'
              (new_location (Zpos m2) (m' mod Zpos m2)) m' (Zpos m2))
    as [Eres Hb].
  - lia.
  - apply new_location_located; lia.
  - lia.
  - unfold k in Hdq. lia.
  - exists sh, (Zdigits2 (m' / Zpos m2) - 53).
    split; [exact Hsh |]. split; [lia |].
    rewrite <- Em'. split; [exact Hb |].
    rewrite Eres. f_equal. unfold sh. lia.
Qed.

Lemma pow2_pos (k : Z) : 0 <= k -> 0 < 2 ^ k.
Proof. intros H. apply Z.pow_pos_nonneg; lia. Qed.

Lemma pow2_split (a b c d : Z) :
  0 <= a -> 0 <= b -> 0 <= c -> 0 <= d -> a + b = c + d ->
  2 ^ a * 2 ^ b = 2 ^ c * 2 ^ d.
Proof.
  intros Ha Hb Hc Hd E. rewrite <- !Z.pow_add_r by lia. f_equal. exact E.
Qed.

Lemma in_binade_shift (W E K : Z) :
  in_binade W E -> 0 <= K -> 0 <= E + K ->
  2 ^ 52 * (100 * 2 ^ (E + K)) <= W * 2 ^ K < 2 ^ 53 * (100 * 2 ^ (E + K)).
Proof.
  unfold in_binade, scaled_num, scaled_den. intros H HK HEK.
  destruct (Z_le_gt_dec 0 E) as [HE | HE].
  - rewrite (Z.max_r (- E) 0), (Z.max_l E 0) in H by lia.
    change (2 ^ 0) with 1 in H. rewrite Z.mul_1_r in H.
    rewrite Z.pow_add_r by lia.
    pose proof (pow2_pos K HK). pose proof (pow2_pos E HE). nia.
  - rewrite (Z.max_l (- E) 0), (Z.max_r E 0) in H by lia.
    change (2 ^ 0) with 1 in H. rewrite Z.mul_1_r in H.
    replace K with (- E + (E + K)) at 2 3 by lia.
    rewrite (Z.pow_add_r 2 (- E) (E + K)) by lia.
    pose proof (pow2_pos (E + K) HEK). pose proof (pow2_pos (- E) ltac:(lia)).
    nia.
Qed.

Lemma in_binade_unique (W E E' : Z) :
  in_binade W E -> in_binade W E' -> E = E'.
Proof.
  assert (Hlt : forall a b, in_binade W a -> in_binade W b -> a < b -> False).
  { intros a b Ha Hb Hab.
    set (K := Z.max (- a) 0).
    pose proof (in_binade_shift W a K Ha ltac:(unfold K; lia) ltac:(unfold K; lia)) as [_ H1].
    pose proof (in_binade_shift W b K Hb ltac:(unfold K; lia) ltac:(unfold K; lia)) as [H2 _].
    assert (Hp : 2 * 2 ^ (a + K) <= 2 ^ (b + K)).
    { replace (b + K) with (1 + (a + K) + (b - a - 1)) by lia.
      rewrite (Z.pow_add_r 2 (1 + (a + K)) (b - a - 1)) by (unfold K; lia).
      rewrite (Z.pow_add_r 2 1 (a + K)) by (unfold K; lia).
      change (2 ^ 1) with 2.
      pose proof (pow2_pos (b - a - 1) ltac:(lia)).
      pose proof (pow2_pos (a + K) ltac:(unfold K; lia)). nia. }
    change (2 ^ 53) with (2 ^ 52 * 2) in H1. lia. }
  intros H H'. destruct (Z.lt_trichotomy E E') as [L | [L | L]].
  - exfalso. exact (Hlt E E' H H' L).
  - exact L.
  - exfalso. exact (Hlt E' E H' H L).
Qed.

Lemma of_Z_100 : of_Z 100 = S754_finite false 7036874417766400 (-46).
Proof. reflexivity. Qed.

Lemma ratio_bounds (X Y A B lo hi : Z) :
  0 < Y -> 0 < B -> X * B = A * Y ->
  lo * Y <= X < hi * Y -> lo * B <= A < hi * B.
Proof. intros HY HB E [H1 H2]. split; nia. Qed.

(** An integer over a hundred, in binary64: the nearest mantissa of 53
    digits in the binade of the quotient. *)
Lemma div_hundred_spec (s : bool) (mw : positive) (ew W : Z) :
  0 < W -> int_value W mw ew ->
  exists E,
    in_binade W E
    /\ f_div (S754_finite s mw ew) (of_Z 100)
       = pack s (nearest_even (scaled_num W E) (scaled_den E)) E.
Proof.
  intros HW Hint. rewrite of_Z_100. unfold f_div.
  assert (Hdig : 1 <= Zpos (digits2_pos mw) + ew).
  { unfold int_value in Hint. destruct (Z.leb_spec 0 ew) as [He | He].
    - lia.
    - assert (H : 2 ^ (- ew) <= Zpos mw).
      { rewrite Hint. pose proof (pow2_pos (- ew) ltac:(lia)). nia. }
      pose proof (Zdigits2_lower (Zpos mw) (- ew) ltac:(lia) H) as H'.
      simpl Zdigits2 in H'. lia. }
  destruct (SFdiv_normal s false mw 7036874417766400 ew (-46))
    as (sh & n & Hsh & Hn & Hb & Eres).
  { change (Zpos (digits2_pos 7036874417766400)) with 53. lia. }
  rewrite Eres. rewrite Bool.xorb_false_r.
  set (E := ew - -46 - sh + n).
  set (X := Zpos mw * 2 ^ sh) in *.
  set (Y := 2 ^ n * 7036874417766400) in *.
  assert (HY : 0 < Y) by (unfold Y; pose proof (pow2_pos n Hn); lia).
  assert (HB : 0 < scaled_den E).
  { unfold scaled_den. pose proof (pow2_pos (Z.max E 0) ltac:(lia)). lia. }
  assert (Hcross : X * scaled_den E = scaled_num W E * Y).
  { unfold X, Y, scaled_den, scaled_num.
    change 7036874417766400 with (100 * 2 ^ 46).
    unfold int_value in Hint. destruct (Z.leb_spec 0 ew) as [He | He].
    - assert (P : 2 ^ sh * 2 ^ Z.max E 0
                  = 2 ^ ew * 2 ^ Z.max (- E) 0 * 2 ^ n * 2 ^ 46).
      { rewrite <- !Z.pow_add_r by lia. f_equal. unfold E. lia. }
      rewrite Hint.
      replace (Zpos mw * 2 ^ sh * (100 * 2 ^ Z.max E 0))
        with (100 * Zpos mw * (2 ^ sh * 2 ^ Z.max E 0)) by ring.
      rewrite P. ring.
    - assert (P : 2 ^ (- ew) * 2 ^ sh * 2 ^ Z.max E 0
                  = 2 ^ Z.max (- E) 0 * 2 ^ n * 2 ^ 46).
      { rewrite <- !Z.pow_add_r by lia. f_equal. unfold E. lia. }
      rewrite Hint.
      replace (W * 2 ^ (- ew) * 2 ^ sh * (100 * 2 ^ Z.max E 0))
        with (100 * W * (2 ^ (- ew) * 2 ^ sh * 2 ^ Z.max E 0)) by ring.
      rewrite P. ring. }
  exists E. split.
  - unfold in_binade. apply (ratio_bounds X Y); assumption.
  - f_equal. apply nearest_even_ratio; assumption.
Qed.

Lemma hundredths_fraction (m : positive) (e : Z) :
  e < 0 -> hundredths m e = nearest_even (100 * Zpos m) (2 ^ (- e)).
Proof. destruct e as [| p | p]; try lia. intros _. reflexivity. Qed.

Lemma hundredths_whole (m : positive) (e : Z) :
  0 <= e -> hundredths m e = 100 * Zpos m * 2 ^ e.
Proof. destruct e as [| p | p]; try lia; intros _; reflexivity. Qed.

Lemma int_value_self (n : positive) : int_value (Zpos n) n 0.
Proof. unfold int_value. simpl. lia. Qed.

Lemma pack_finite (s : bool) (m : positive) (e : Z) :
  Zpos m < 2 ^ 53 -> e <= 971 -> pack s (Zpos m) e = S754_finite s m e.
Proof.
  intros Hm He. unfold pack.
  destruct (Z.eqb_spec (Zpos m) (2 ^ 53)) as [E | E]; [lia |].
  unfold emax, prec. destruct (Z.leb_spec e (1024 - 53)); [reflexivity | lia].
Qed.

(** Re-parsing the hundredths of a double [m * 2^e] that is large enough
    for its last place to weigh more than a hundredth (from 2^46 on)
    gives the double back. *)
Lemma of_hundredths_coarse (s : bool) (m : positive) (e : Z) :
  2 ^ 52 <= Zpos m < 2 ^ 53 -> -6 <= e <= 971 ->
  of_hundredths s (hundredths m e) = S754_finite s m e.
Proof.
  intros Hm He.
  assert (Hkey : 0 < hundredths m e
                 /\ in_binade (hundredths m e) e
                 /\ nearest_even (scaled_num (hundredths m e) e) (scaled_den e)
                    = Zpos m).
  { unfold in_binade, scaled_num, scaled_den.
    destruct (Z_le_gt_dec 0 e) as [H0 | H0].
    - rewrite hundredths_whole by exact H0.
      rewrite (Z.max_r (- e) 0), (Z.max_l e 0) by lia.
      change (2 ^ 0) with 1. rewrite Z.mul_1_r.
      pose proof (pow2_pos e H0) as Hp.
      split; [nia |]. split; [nia |].
      replace (100 * Zpos m * 2 ^ e) with (Zpos m * (100 * 2 ^ e)) by ring.
      apply nearest_even_exact. lia.
    - rewrite hundredths_fraction by lia.
      rewrite (Z.max_l (- e) 0), (Z.max_r e 0) by lia.
      change (2 ^ 0) with 1. rewrite Z.mul_1_r.
      set (P := 2 ^ (- e)).
      assert (HP : 2 <= P <= 64).
      { unfold P. split.
        - change 2 with (2 ^ 1) at 1. apply Z.pow_le_mono_r; lia.
        - change 64 with (2 ^ 6). apply Z.pow_le_mono_r; lia. }
      destruct (Z.eq_dec (Zpos m) (2 ^ 52)) as [Em | Em].
      + assert (EN : nearest_even (100 * Zpos m) P = 100 * 2 ^ (52 + e)).
        { rewrite Em.
          replace (100 * 2 ^ 52) with (100 * 2 ^ (52 + e) * P).
          - apply nearest_even_exact. lia.
          - unfold P. rewrite <- Z.mul_assoc, <- Z.pow_add_r by lia.
            f_equal. f_equal. lia. }
        rewrite EN.
        assert (EP : 100 * 2 ^ (52 + e) * P = 100 * 2 ^ 52).
        { unfold P. rewrite <- Z.mul_assoc, <- Z.pow_add_r by lia.
          f_equal. f_equal. lia. }
        rewrite EP. pose proof (pow2_pos (52 + e) ltac:(lia)).
        split; [lia |]. split; [lia |].
        rewrite Em. replace (100 * 2 ^ 52) with (2 ^ 52 * 100) by ring.
        apply nearest_even_exact. lia.
      + pose proof (nearest_even_bound (100 * Zpos m) P ltac:(lia)) as Hb.
        set (N := nearest_even (100 * Zpos m) P) in *.
        split; [nia |]. split; [lia |].
        apply nearest_even_unique; lia. }
  destruct Hkey as (HN & Hbin & Hne).
  destruct (hundredths m e) as [| n | n] eqn:EN; try lia.
  cbn [of_hundredths].
  destruct (div_hundred_spec s n 0 (Zpos n) ltac:(lia) (int_value_self n))
    as (E' & Hbin' & ->).
  rewrite (in_binade_unique _ _ _ Hbin' Hbin), Hne.
  apply pack_finite; lia.
Qed.

Lemma pack_inv (s s' : bool) (m0 E : Z) (m : positive) (e : Z) :
  2 ^ 52 <= m0 <= 2 ^ 53 ->
  pack s m0 E = S754_finite s' m e ->
  s' = s /\ e <= 971 /\ 2 ^ 52 <= Zpos m < 2 ^ 53
  /\ ((Zpos m = m0 /\ e = E) \/ (m0 = 2 ^ 53 /\ Zpos m = 2 ^ 52 /\ e = E + 1)).
Proof.
  intros Hm0. unfold pack, emax, prec.
  destruct (Z.eqb_spec m0 (2 ^ 53)) as [E0 | E0].
  - destruct (Z.leb_spec (E + 1) (1024 - 53)) as [L | L]; [| discriminate].
    intros H. injection H as <- <- <-.
    split; [reflexivity |]. split; [lia |].
    split; [simpl; lia |]. right. split; [exact E0 |]. split; reflexivity.
  - destruct (Z.leb_spec E (1024 - 53)) as [L | L]; [| discriminate].
    intros H. injection H as <- <- <-.
    destruct m0 as [| p | p]; try lia. simpl Z.to_pos.
    split; [reflexivity |]. split; [lia |]. split; [lia |].
    left. split; reflexivity.
Qed.

(** Re-parsing the hundredths of the double nearest to [W / 100], for an
    integer [W], gives the double back. *)
Lemma of_hundredths_nearest (s : bool) (W E : Z) :
  0 < W -> in_binade W E ->
  match pack s (nearest_even (scaled_num W E) (scaled_den E)) E with
  | S754_finite s' m e =>
      of_hundredths s' (hundredths m e)
      = pack s (nearest_even (scaled_num W E) (scaled_den E)) E
  | _ => True
  end.
Proof.
  intros HW Hbin.
  set (m0 := nearest_even (scaled_num W E) (scaled_den E)).
  assert (HB : 0 < scaled_den E).
  { unfold scaled_den. pose proof (pow2_pos (Z.max E 0) ltac:(lia)). lia. }
  assert (Hm0 : 2 ^ 52 <= m0 <= 2 ^ 53).
  { apply nearest_even_mono; unfold in_binade in Hbin; lia. }
  destruct (pack s m0 E) as [| | | s' m e] eqn:EV; try exact I.
  destruct (pack_inv s s' m0 E m e Hm0 EV) as (-> & He & Hm & Hcase).
  destruct (Z_le_gt_dec e (-7)) as [Hfine | Hcoarse].
  - assert (HE : E <= -7) by (destruct Hcase as [[_ ->] | (_ & _ & ->)]; lia).
    pose proof (nearest_even_bound (scaled_num W E) (scaled_den E) HB) as Hb.
    fold m0 in Hb. unfold scaled_num, scaled_den in Hb.
    rewrite (Z.max_l (- E) 0), (Z.max_r E 0) in Hb by lia.
    change (2 ^ 0) with 1 in Hb. rewrite Z.mul_1_r in Hb.
    assert (HP : 128 <= 2 ^ (- e)).
    { change 128 with (2 ^ 7). apply Z.pow_le_mono_r; lia. }
    assert (EN : hundredths m e = W).
    { rewrite hundredths_fraction by lia.
      apply nearest_even_unique; [lia |].
      destruct Hcase as [[Em Ee] | (E0 & Em & Ee)].
      - subst e. rewrite Em. lia.
      - rewrite Em. rewrite E0 in Hb.
        replace (- E) with (1 + - e) in Hb by lia.
        rewrite Z.pow_add_r in Hb by lia. change (2 ^ 1) with 2 in Hb.
        change (2 ^ 53) with (2 * 2 ^ 52) in Hb. lia. }
    rewrite EN. destruct W as [| w | w]; try lia. cbn [of_hundredths].
    destruct (div_hundred_spec s w 0 (Zpos w) ltac:(lia) (int_value_self w))
      as (E' & Hbin' & ->).
    rewrite (in_binade_unique _ _ _ Hbin' Hbin). fold m0. exact EV.
  - apply of_hundredths_coarse; lia.
Qed.

Lemma iter_xO_pow2 (n k : positive) :
  Zpos (Pos.iter xO n k) = Zpos n * 2 ^ Zpos k.
Proof.
  induction k as [| k IH] using Pos.peano_ind.
  - change (Pos.iter xO n 1) with (n~0)%positive. change (2 ^ 1) with 2. lia.
  - rewrite Pos.iter_succ, Pos2Z.inj_succ, Z.pow_succ_r by lia.
    change (Zpos (Pos.iter xO n k)~0) with (2 * Zpos (Pos.iter xO n k)).
    rewrite IH. ring.
Qed.

Lemma located_exact (m : Z) : 0 <= m -> located m 1 (shr_record_of_loc m loc_Exact).
Proof. intros H. unfold located. cbn [shr_record_of_loc shr_m shr_r shr_s]. lia. Qed.

(** A positive integer rounded to a double is an integer. *)
Lemma binary_round_integral (s : bool) (n : positive) :
  match binary_round prec emax s n 0 with
  | S754_finite _ m e => exists W, 0 < W /\ int_value W m e
  | _ => True
  end.
Proof.
  unfold binary_round. pose proof (digits2_bounds n) as [Hlo Hhi].
  set (d := Zpos (digits2_pos n)) in *.
  assert (Hd : 0 < d) by (unfold d; lia).
  rewrite fexp_normal by lia. unfold shl_align.
  destruct (Z_lt_le_dec d 53) as [Hs | Hs].
  - destruct (d + 0 - 53 - 0) as [| k | k] eqn:Ek; try lia.
    assert (Emz : Zpos (Pos.iter xO n k) = Zpos n * 2 ^ (53 - d)).
    { rewrite iter_xO_pow2. f_equal. f_equal. lia. }
    assert (Hmz : 2 ^ 52 <= Zpos (Pos.iter xO n k) < 2 ^ 53).
    { rewrite Emz. pose proof (pow2_pos (53 - d) ltac:(lia)) as Hp.
      assert (E52 : 2 ^ 52 = 2 ^ (d - 1) * 2 ^ (53 - d)).
      { rewrite <- Z.pow_add_r by lia. f_equal. lia. }
      assert (E53 : 2 ^ 53 = 2 ^ d * 2 ^ (53 - d)).
      { rewrite <- Z.pow_add_r by lia. f_equal. lia. }
      split; [rewrite E52 | rewrite E53]; nia. }
    assert (Hdig : Zdigits2 (Zpos (Pos.iter xO n k)) = 53).
    { apply Zdigits2_unique; [exact Hmz | lia]. }
    destruct (binary_round_aux_normal s (Zpos (Pos.iter xO n k)) (d + 0 - 53)
                loc_Exact (Zpos (Pos.iter xO n k)) 1) as [-> _].
    + lia.
    + apply located_exact. lia.
    + lia.
    + lia.
    + rewrite Hdig. change (2 ^ (53 - 53) * 1) with 1.
      assert (Hne : nearest_even (Zpos (Pos.iter xO n k)) 1
                    = Zpos (Pos.iter xO n k)).
      { apply nearest_even_unique; lia. }
      rewrite Hne. rewrite pack_finite by lia.
      exists (Zpos n). split; [lia |]. unfold int_value.
      destruct (Z.leb_spec 0 (d + 0 - 53 + (53 - 53))) as [L | L]; [lia |].
      rewrite Emz. f_equal. f_equal. lia.
  - assert (Hshl : match d + 0 - 53 - 0 with
                   | Zneg d0 => (Pos.iter xO n d0, d + 0 - 53)
                   | _ => (n, 0)
                   end = (n, 0)).
    { destruct (d + 0 - 53 - 0) as [| k | k] eqn:Ek; try reflexivity. lia. }
    rewrite Hshl.
    destruct (binary_round_aux_normal s (Zpos n) 0 loc_Exact (Zpos n) 1)
      as [-> Hb].
    + lia.
    + apply located_exact. lia.
    + simpl Zdigits2. fold d. lia.
    + simpl Zdigits2. fold d. lia.
    + simpl Zdigits2 in *. fold d in Hb |- *.
      set (m0 := nearest_even (Zpos n) (2 ^ (d - 53) * 1)).
      pose proof (pow2_pos (d - 53) ltac:(lia)) as Hp.
      assert (Hm0 : 2 ^ 52 <= m0 <= 2 ^ 53).
      { apply nearest_even_mono; lia. }
      destruct (pack s m0 (0 + (d - 53))) as [| | | s' m e] eqn:EV; try exact I.
      destruct (pack_inv s s' m0 _ m e Hm0 EV) as (_ & _ & Hm & Hcase).
      assert (He : 0 <= e) by (destruct Hcase as [[_ ->] | (_ & _ & ->)]; lia).
      exists (Zpos m * 2 ^ e). split.
      * pose proof (pow2_pos e He). nia.
      * unfold int_value. destruct (Z.leb_spec 0 e); [reflexivity | lia].
Qed.

(** [rint] of a double is an integer, when finite and not zero. *)
Lemma rint_integral (y : float64) :
  match f_rint y with
  | S754_finite _ m e => exists W, 0 < W /\ int_value W m e
  | _ => True
  end.
Proof.
  destruct y as [s | s | | s m e]; try exact I.
  destruct e as [| p | p].
  - cbn [f_rint]. exists (Zpos m). split; [lia |]. unfold int_value. simpl. lia.
  - cbn [f_rint]. exists (Zpos m * 2 ^ Zpos p). split.
    + pose proof (pow2_pos (Zpos p) ltac:(lia)). nia.
    + unfold int_value. reflexivity.
  - cbn [f_rint].
    destruct (nearest_even (Zpos m) (Z.pow_pos 2 p)) as [| n | n]; try exact I.
    apply binary_round_integral.
Qed.

(** What [round] leaves in a cell is given back by re-parsing its
    hundredths. *)
Lemma round2_reparse (x : float64) :
  match round2 x with
  | S754_finite s m e => of_hundredths s (hundredths m e) = round2 x
  | _ => True
  end.
Proof.
  unfold round2. cbn [div rint mul lit binary64]. cbn [f_lit].
  pose proof (rint_integral (f_mul x (of_Z 100))) as Hint.
  destruct (f_rint (f_mul x (of_Z 100))) as [s | s | | s mw ew].
  - exact I.
  - exact I.
  - exact I.
  - destruct Hint as (W & HW & Hint).
    destruct (div_hundred_spec s mw ew W HW Hint) as (E & Hbin & ->).
    apply of_hundredths_nearest; assumption.
Qed.

End RoundingFacts.

(* ================================================================== *)
(** ** Writing the result table and reading it back *)

Section CsvFacts.
Import Binary64 Rounding Csv Home.

Lemma append_nil_r (s : string) : s ++ "" = s.
Proof. induction s as [| c s IH]; simpl; congruence. Qed.

Lemma append_assoc (a b c : string) : (a ++ b) ++ c = a ++ b ++ c.
Proof. induction a as [| x a IH]; simpl; congruence. Qed.

Lemma lacks_app (sep : ascii) (a b : string) :
  lacks sep a -> lacks sep b -> lacks sep (a ++ b).
Proof.
  unfold lacks. induction a as [| x a IH]; simpl; intros Ha Hb c H.
  - apply Hb. exact H.
  - destruct H as [<- | H].
    + apply Ha. left. reflexivity.
    + apply IH; [| exact Hb | exact H]. intros c' Hc'. apply Ha. right. exact Hc'.
Qed.

Lemma lacks_cons (sep c : ascii) (s : string) :
  c <> sep -> lacks sep s -> lacks sep (String c s).
Proof.
  intros Hc Hs c' [<- | H]; [exact Hc | apply Hs; exact H].
Qed.

Lemma lacks_nil (sep : ascii) : lacks sep "".
Proof. intros c []. Qed.

Lemma digit_value_digit (d : Z) : 0 <= d <= 9 -> digit_value (digit d) = Some d.
Proof.
  intros H.
  assert (C : d = 0 \/ d = 1 \/ d = 2 \/ d = 3 \/ d = 4 \/ d = 5 \/ d = 6
              \/ d = 7 \/ d = 8 \/ d = 9) by lia.
  destruct C as [-> | [-> | [-> | [-> | [-> | [-> | [-> | [-> | [-> | ->]]]]]]]]];
    reflexivity.
Qed.

Lemma lacks_digit (sep : ascii) (d : Z) (s : string) :
  digit_value sep = None -> 0 <= d <= 9 -> lacks sep s ->
  lacks sep (String (digit d) s).
Proof.
  intros Hsep Hd Hs. apply lacks_cons; [| exact Hs].
  intros E. rewrite <- E, digit_value_digit in Hsep by exact Hd. discriminate.
Qed.

Lemma lacks_string_of_uint (sep : ascii) (u : Decimal.uint) :
  digit_value sep = None -> lacks sep (NilEmpty.string_of_uint u).
Proof.
  intros Hsep. induction u as [| u IH | u IH | u IH | u IH | u IH | u IH
                               | u IH | u IH | u IH | u IH];
    cbn [NilEmpty.string_of_uint];
    [apply lacks_nil | ..];
    (apply lacks_cons; [intros E; rewrite <- E in Hsep; discriminate Hsep | exact IH]).
Qed.

Lemma lacks_two_digits (sep : ascii) (n : Z) :
  digit_value sep = None -> 0 <= n < 100 -> lacks sep (two_digits n).
Proof.
  intros Hsep Hn. unfold two_digits.
  assert (0 <= n / 10 <= 9).
  { split; [apply Z.div_pos; lia |].
    assert (n / 10 < 10) by (apply Z.div_lt_upper_bound; lia). lia. }
  pose proof (Z.mod_pos_bound n 10 ltac:(lia)).
  apply lacks_digit; [exact Hsep | lia |].
  apply lacks_digit; [exact Hsep | lia |]. apply lacks_nil.
Qed.

Lemma hundredths_nonnegative (m : positive) (e : Z) : 0 <= hundredths m e.
Proof.
  destruct e as [| p | p]; cbn [hundredths].
  - lia.
  - pose proof (pow2_pos (Zpos p) ltac:(lia)). nia.
  - change (Z.pow_pos 2 p) with (2 ^ Zpos p).
    pose proof (pow2_pos (Zpos p) ltac:(lia)).
    apply (nearest_even_mono (100 * Zpos m) (2 ^ Zpos p) 0 (100 * Zpos m)); nia.
Qed.

Lemma lacks_numeral (sep : ascii) (s : bool) (n : Z) :
  digit_value sep = None -> sep <> "-"%char -> sep <> "."%char ->
  lacks sep (numeral s n).
Proof.
  intros Hsep Hminus Hpoint. unfold numeral.
  apply lacks_app.
  - destruct s; cbn [sign]; [| apply lacks_nil].
    apply lacks_cons; [congruence | apply lacks_nil].
  - apply lacks_app; [apply lacks_string_of_uint; exact Hsep |].
    change ("." ++ two_digits (n mod 100)) with (String "." (two_digits (n mod 100))).
    apply lacks_cons; [congruence |].
    apply lacks_two_digits; [exact Hsep |]. apply Z.mod_pos_bound. lia.
Qed.

Lemma lacks_render_cell (sep : ascii) (v : float64) :
  sep = ","%char \/ sep = newline -> lacks sep (render_cell v).
Proof.
  intros Hsep.
  assert (H : digit_value sep = None /\ sep <> "-"%char /\ sep <> "."%char
              /\ lacks sep "inf" /\ lacks sep "nan").
  { destruct Hsep as [-> | ->]; (split; [reflexivity |]);
      (split; [discriminate |]); (split; [discriminate |]);
      split; intros c Hc; cbn in Hc;
      repeat (destruct Hc as [<- | Hc]; [discriminate |]); contradiction. }
  destruct H as (Hd & Hm & Hp & Hinf & Hnan).
  destruct v as [s | s | | s m e]; cbn [render_cell].
  - apply lacks_numeral; assumption.
  - apply lacks_app; [| exact Hinf].
    destruct s; cbn [sign]; [| apply lacks_nil].
    apply lacks_cons; [congruence | apply lacks_nil].
  - exact Hnan.
  - apply lacks_numeral; assumption.
Qed.

Lemma split_sign_numeral (u : Decimal.uint) (r : string) :
  let body := NilEmpty.string_of_uint u ++ String "." r in
  split_sign body = (false, body)
  /\ String.eqb body "nan" = false /\ String.eqb body "inf" = false.
Proof. destruct u; repeat split. Qed.

(** A numeral is read as the double of its hundredths. *)
Lemma parse_cell_numeral (s : bool) (n : Z) :
  0 <= n -> parse_cell (numeral s n) = Some (of_hundredths s n).
Proof.
  intros Hn. unfold numeral, decimal.
  set (u := N.to_uint (Z.to_N (n / 100))).
  change ("." ++ two_digits (n mod 100)) with (String "." (two_digits (n mod 100))).
  destruct (split_sign_numeral u (two_digits (n mod 100))) as (Hs & Hnan & Hinf).
  cbv zeta in Hs, Hnan, Hinf.
  set (body := NilEmpty.string_of_uint u ++ String "." (two_digits (n mod 100))) in *.
  assert (Hsign : split_sign (sign s ++ body) = (s, body)).
  { destruct s; cbn [sign]; [reflexivity | exact Hs]. }
  unfold parse_cell. rewrite Hsign, Hnan, Hinf.
  unfold body. rewrite split_at_first_sep
    by (apply lacks_string_of_uint; reflexivity).
  pose proof (Z.mod_pos_bound n 100 ltac:(lia)) as HF.
  rewrite split_without_sep by (apply lacks_two_digits; [reflexivity | lia]).
  unfold two_digits. rewrite NilEmpty.usu.
  assert (0 <= n mod 100 / 10 <= 9).
  { split; [apply Z.div_pos; lia |].
    assert (n mod 100 / 10 < 10) by (apply Z.div_lt_upper_bound; lia). lia. }
  pose proof (Z.mod_pos_bound (n mod 100) 10 ltac:(lia)).
  rewrite !digit_value_digit by lia.
  unfold u. rewrite DecimalN.Unsigned.of_to, Z2N.id by (apply Z.div_pos; lia).
  f_equal. f_equal.
  pose proof (Z.div_mod n 100 ltac:(lia)).
  pose proof (Z.div_mod (n mod 100) 10 ltac:(lia)). lia.
Qed.

(** Writing a cell and reading it back. *)
Lemma parse_render_cell (v : float64) :
  two_decimals v -> parse_cell (render_cell v) = Some v.
Proof.
  destruct v as [s | s | | s m e]; cbn [render_cell two_decimals].
  - intros _. rewrite parse_cell_numeral by lia. reflexivity.
  - intros _. destruct s; reflexivity.
  - intros _. reflexivity.
  - intros H. rewrite parse_cell_numeral by apply hundredths_nonnegative.
    rewrite H. reflexivity.
Qed.

Lemma concat_cons (x : string) (xs : list string) :
  String.concat "" (x :: xs) = x ++ String.concat "" xs.
Proof.
  destruct xs as [| y ys]; cbn [String.concat].
  - symmetry. apply append_nil_r.
  - reflexivity.
Qed.

Lemma split_lines (ls : list string) :
  Forall (lacks newline) ls ->
  Home.split newline
    (String.concat "" (map (fun l => l ++ String newline "") ls))
  = (ls ++ [""])%list.
Proof.
  induction 1 as [| l ls Hl _ IH].
  - reflexivity.
  - cbn [map]. rewrite concat_cons, append_assoc.
    change (String newline "" ++ ?x) with (String newline x).
    cbn [append].
    rewrite split_at_first_sep by exact Hl. rewrite IH. reflexivity.
Qed.

Lemma split_three (a b c : string) :
  lacks "," a -> lacks "," b -> lacks "," c ->
  Home.split "," (Home.join "," [a; b; c]) = [a; b; c].
Proof.
  intros Ha Hb Hc.
  change (Home.join "," [a; b; c]) with (a ++ String "," (b ++ String "," c)).
  rewrite split_at_first_sep by exact Ha.
  rewrite split_at_first_sep by exact Hb.
  rewrite split_without_sep by exact Hc. reflexivity.
Qed.

Lemma lacks_join_three (a b c : string) :
  lacks newline a -> lacks newline b -> lacks newline c ->
  lacks newline (Home.join "," [a; b; c]).
Proof.
  intros Ha Hb Hc.
  change (Home.join "," [a; b; c]) with (a ++ String "," (b ++ String "," c)).
  apply lacks_app; [exact Ha |]. apply lacks_cons; [discriminate |].
  apply lacks_app; [exact Hb |]. apply lacks_cons; [discriminate | exact Hc].
Qed.

Lemma traverse_map {A B C : Type} (f : B -> option C) (g : A -> B)
      (h : A -> C) (l : list A) :
  (forall x, In x l -> f (g x) = Some (h x)) ->
  traverse f (map g l) = Some (map h l).
Proof.
  induction l as [| x l IH]; intros H; [reflexivity |].
  cbn [map traverse]. rewrite H by (left; reflexivity).
  rewrite IH; [reflexivity |]. intros y Hy. apply H. right. exact Hy.
Qed.

Lemma map_nth_seq {A : Type} (l : list A) (d : A) (n : nat) :
  List.length l = n -> map (fun i => nth i l d) (seq 0 n) = l.
Proof.
  intros <-. induction l as [| x l IH]; [reflexivity |].
  cbn [List.length seq map nth]. f_equal.
  rewrite <- seq_shift, map_map. exact IH.
Qed.

(** A table of three columns of equal length, written and read back. *)
Lemma read_csv_to_csv (h1 h2 h3 : string) (c1 c2 c3 : Series float64) :
  lacks "," h1 -> lacks "," h2 -> lacks "," h3 ->
  lacks newline h1 -> lacks newline h2 -> lacks newline h3 ->
  List.length c2 = List.length c1 -> List.length c3 = List.length c1 ->
  Forall two_decimals c1 -> Forall two_decimals c2 -> Forall two_decimals c3 ->
  read_csv (to_csv [(h1, c1); (h2, c2); (h3, c3)])
  = Some [(h1, c1); (h2, c2); (h3, c3)].
Proof.
  intros Hc1 Hc2 Hc3 Hn1 Hn2 Hn3 L2 L3 F1 F2 F3.
  set (table := [(h1, c1); (h2, c2); (h3, c3)]).
  set (n := List.length c1).
  set (cells := fun i => map render_cell (row_at table i)).
  assert (Etext : to_csv table
                  = String.concat ""
                      (map (fun l => l ++ String newline "")
                           (Home.join "," [h1; h2; h3]
                            :: map (fun i => Home.join "," (cells i)) (seq 0 n)))).
  { unfold to_csv, line. cbn [map]. rewrite concat_cons.
    f_equal. rewrite map_map. reflexivity. }
  assert (Hlines : Forall (lacks newline)
                     (Home.join "," [h1; h2; h3]
                      :: map (fun i => Home.join "," (cells i)) (seq 0 n))).
  { constructor; [apply lacks_join_three; assumption |].
    apply Forall_forall. intros l Hl. apply in_map_iff in Hl.
    destruct Hl as (i & <- & _). unfold cells, row_at, table. cbn [map snd].
    apply lacks_join_three; apply lacks_render_cell; right; reflexivity. }
  unfold read_csv. rewrite Etext, (split_lines _ Hlines).
  rewrite <- app_comm_cons, removelast_last.
  rewrite split_three by assumption.
  rewrite (traverse_map _ _ (row_at table)).
  - cbn [List.length seq map nth]. unfold table, n.
    rewrite !map_map. cbn [row_at map snd nth].
    rewrite (map_nth_seq c1), (map_nth_seq c2), (map_nth_seq c3)
      by (reflexivity || assumption).
    reflexivity.
  - intros i Hi. apply in_seq in Hi. unfold cells, row_at, table. cbn [map snd].
    rewrite split_three by (apply lacks_render_cell; left; reflexivity).
    cbn [traverse].
    assert (Hnth : forall c, Forall two_decimals c -> two_decimals (nth i c nan)).
    { intros c Hc. destruct (nth_in_or_default i c nan) as [Hin | ->].
      - rewrite Forall_forall in Hc. apply Hc. exact Hin.
      - exact I. }
    rewrite !parse_render_cell by (apply Hnth; assumption). reflexivity.
Qed.

Lemma round_two_decimals (s : Series float64) : Forall two_decimals (round s).
Proof.
  apply Forall_forall. intros v Hv. unfold round in Hv.
  apply in_map_iff in Hv. destruct Hv as (x & <- & _).
  exact (round2_reparse x).
Qed.

Lemma header_lacks :
  (lacks "," "Rainfall (mm)" /\ lacks "," "Runoff (mm)"
   /\ lacks "," "Runoff Volume (m³)")
  /\ (lacks newline "Rainfall (mm)" /\ lacks newline "Runoff (mm)"
      /\ lacks newline "Runoff Volume (m³)").
Proof.
  repeat split; intros c Hc; cbn in Hc;
    repeat (destruct Hc as [<- | Hc]; [discriminate |]); contradiction.
Qed.

(** The result table of the handler: three columns of rounded values, as
    long as the table uploaded. *)
Lemma result_columns (n : nat) (data res : DataFrame float64) (method : string) :
  well_formed n data ->
  calculate_runoff data method = inr res ->
  exists rainfall Q runoff_volume,
    res = [ ("Rainfall (mm)", round rainfall); ("Runoff (mm)", round Q);
            ("Runoff Volume (m³)", round runoff_volume) ]
    /\ List.length rainfall = n /\ List.length Q = n
    /\ List.length runoff_volume = n.
Proof.
  intros Hwf. unfold calculate_runoff.
  destruct (getitem data "Rainfall (mm)") as [e | rainfall] eqn:ER; [discriminate |].
  destruct (getitem data "Curve Number") as [e | CN] eqn:EC; [discriminate |].
  destruct (getitem data "Area (sq.km)") as [e | area] eqn:EA; [discriminate |].
  pose proof (getitem_length _ _ _ _ Hwf ER) as LR.
  pose proof (getitem_length _ _ _ _ Hwf EC) as LC.
  pose proof (getitem_length _ _ _ _ Hwf EA) as LA.
  cbn [bind].
  destruct (String.eqb method "SCS CN Method"); intros E; injection E as <-;
    do 3 eexists; (split; [reflexivity |]); (split; [exact LR |]);
    split; unfold op_scalar, scalar_op, square;
    repeat (rewrite ?length_map; rewrite ?series_op_length);
    rewrite ?length_map; congruence.
Qed.

(** C9. The result table, written as delimited text with a header row
    and two decimals in every cell, and read back, is the result table:
    the cells that come back are exactly the rounded values.  And
    rounding is the last step only: every cell is [round2] of a value
    computed without rounding to decimals, the volume of the SCS branch
    from the unrounded depth, the depth of the Strange branch from the
    unrounded volume. *)
Theorem result_table_round_trip (n : nat) (data res : DataFrame float64)
        (method : string) :
  well_formed n data ->
  calculate_runoff data method = inr res ->
  read_csv (to_csv res) = Some res
  /\ exists rows,
       table_rows data = inr rows
       /\ forall i r, nth_error rows i = Some r ->
          exists row,
            nth_error (result_rows res) i = Some row
            /\ (let P := rainfall_mm r in
                let CN := curve_number r in
                let A := area_sqkm r in
                let S := f_sub (f_div (f_lit 25400 0) CN) (f_lit 254 0) in
                let excess := f_sub P (f_mul (f_lit 2 1) S) in
                let depth :=
                  if String.eqb method "SCS CN Method"
                  then f_div (f_mul excess excess) (f_add P (f_mul (f_lit 8 1) S))
                  else f_div (f_mul (f_mul P A) (f_lit 278 3)) A in
                let volume :=
                  if String.eqb method "SCS CN Method"
                  then f_mul (f_mul depth A) (f_lit 1000 0)
                  else f_mul (f_mul P A) (f_lit 278 3) in
                rainfall_out row = round2 P
                /\ runoff_mm row = round2 depth
                /\ runoff_volume_m3 row = round2 volume).
Proof.
  intros Hwf Hres. split.
  - destruct (result_columns n data res method Hwf Hres)
      as (rainfall & Q & V & -> & LR & LQ & LV).
    destruct header_lacks as ((C1 & C2 & C3) & (N1 & N2 & N3)).
    apply read_csv_to_csv; try assumption;
      try apply round_two_decimals;
      rewrite !round_length; congruence.
  - assert (Hrows : exists rows, table_rows data = inr rows).
    { unfold calculate_runoff in Hres. unfold table_rows.
      destruct (getitem data "Rainfall (mm)") as [e | rainfall]; [discriminate |].
      destruct (getitem data "Curve Number") as [e | CN]; [discriminate |].
      destruct (getitem data "Area (sq.km)") as [e | area]; [discriminate |].
      eexists. reflexivity. }
    destruct Hrows as [rows Hrows]. exists rows. split; [exact Hrows |].
    destruct (calculate_runoff_rows n data method rows Hwf Hrows)
      as (res' & Hres' & Hmap & _).
    assert (res' = res) by congruence. subst res'.
    intros i r Hi. exists (compute_row method r).
    rewrite Hmap, nth_error_map, Hi. split; [reflexivity |].
    unfold compute_row. destruct (String.eqb method "SCS CN Method");
      repeat split.
Qed.

End CsvFacts.

(** The result table of the two sample catchments, written and read
    back, and the text in between. *)
Lemma result_table_round_trip_witness :
  exists res,
    calculate_runoff Samples.two_rows "SCS CN Method" = inr res
    /\ Csv.read_csv (Csv.to_csv res) = Some res
    /\ Csv.to_csv res
       = "Rainfall (mm),Runoff (mm),Runoff Volume (m³)"
         ++ String Csv.newline "50.00,13.80,138024.80"
         ++ String Csv.newline "5.00,3.05,3054.55"
         ++ String Csv.newline "".
Proof.
  eexists. split; [vm_compute; reflexivity |]. split.
  - refine (proj1 (result_table_round_trip 2 Samples.two_rows _
                     "SCS CN Method" _ _)).
    + repeat constructor.
    + vm_compute. reflexivity.
  - vm_compute. reflexivity.
Defined.
